(** * Apply-IPTC-from-CSV: the matching engine of [apply_iptc.py]

    A shallow embedding of [find_best_match] and [disambiguate_matches],
    of the filter of [build_img_index], of [apply_iptc_metadata] and of
    the loop of [main], followed by their properties.

    Conventions of the embedding:
    - a Python [str] is the list of its Unicode code points;
    - a Python [int] is a [Z]; the only [float] arithmetic of the matcher,
      [csv_size * 0.05], is IEEE binary64 as given by [SpecFloat];
    - a raised exception is the [Raise] case of [result];
    - the file system and exiftool are a [System] over a state that the
      writer and the loop pass along; what the program prints is left out;
    - the functions of the Python runtime whose tables are not part of the
      repository ([str.lower], [str.isdigit], [str.isspace], [int(str)],
      [datetime.strptime]) are the fields of the class [PyRuntime]; the
      instance [latin1] implements them for text of code points below 256. *)

From Stdlib Require Import ZArith NArith List Bool String Ascii Lia.
From Stdlib Require Import Permutation.
From Stdlib Require Import Floats.SpecFloat.
Import ListNotations.
Open Scope Z_scope.

(** ** Python strings *)

Definition pystr := list N.

Fixpoint pystr_eqb (a b : pystr) : bool :=
  match a, b with
  | [], [] => true
  | x :: a', y :: b' => N.eqb x y && pystr_eqb a' b'
  | _, _ => false
  end.

(** [len(s) == 0], the falsity of a string. *)
Definition is_empty (s : pystr) : bool :=
  match s with [] => true | _ => false end.

(** [s.startswith(prefix)] *)
Fixpoint startswith (s prefix : pystr) : bool :=
  match prefix, s with
  | [], _ => true
  | p :: prefix', c :: s' => N.eqb p c && startswith s' prefix'
  | _ :: _, [] => false
  end.

(** [sub in s], substring containment. *)
Fixpoint contains (s sub : pystr) : bool :=
  startswith s sub ||
  match s with
  | [] => false
  | _ :: s' => contains s' sub
  end.

(** [s.rfind(c)] for a one-character [c]: the highest index, or [-1]. *)
Fixpoint rfind_from (c : N) (s : pystr) (i last : Z) : Z :=
  match s with
  | [] => last
  | x :: s' => rfind_from c s' (i + 1) (if N.eqb x c then i else last)
  end.

Definition rfind (c : N) (s : pystr) : Z := rfind_from c s 0 (-1).

(** The slice [p[lo:hi]] for [0 <= lo]. *)
Definition slice (p : pystr) (lo hi : Z) : pystr :=
  firstn (Z.to_nat (hi - lo)) (skipn (Z.to_nat lo) p).

Definition chr_slash : N := 47%N.
Definition chr_dot : N := 46%N.

(** [os.path.splitext] of [posixpath] ([genericpath._splitext] with
    [sep = '/'], no [altsep], [extsep = '.']): the extension starts at the
    last dot, provided that dot comes after the last separator and some
    character between the separator and the dot is not a dot. *)
Definition splitext (p : pystr) : pystr * pystr :=
  let sepIndex := rfind chr_slash p in
  let dotIndex := rfind chr_dot p in
  if (sepIndex <? dotIndex)
     && existsb (fun c => negb (N.eqb c chr_dot)) (slice p (sepIndex + 1) dotIndex)
  then (firstn (Z.to_nat dotIndex) p, skipn (Z.to_nat dotIndex) p)
  else (p, []).

(** [s.split('.')[0]]: the text before the first dot. *)
Fixpoint before_dot (s : pystr) : pystr :=
  match s with
  | [] => []
  | c :: s' => if N.eqb c chr_dot then [] else c :: before_dot s'
  end.

(** Removal of the leading, then of the trailing characters of class
    [sp]; [str.strip] is the instance for whitespace. *)
Fixpoint lstrip_by (sp : N -> bool) (s : pystr) : pystr :=
  match s with
  | [] => []
  | c :: s' => if sp c then lstrip_by sp s' else s
  end.

Definition strip_by (sp : N -> bool) (s : pystr) : pystr :=
  rev (lstrip_by sp (rev (lstrip_by sp s))).

(** Decoding of a UTF-8 literal into code points, used to write the
    program's string constants and the example inputs. *)
Fixpoint utf8_decode (fuel : nat) (bs : list N) : pystr :=
  match fuel with
  | O => []
  | S fuel' =>
    match bs with
    | [] => []
    | b :: rest =>
      if (b <? 128)%N then b :: utf8_decode fuel' rest
      else if (b <? 224)%N then
        match rest with
        | b1 :: rest' =>
            ((b mod 32) * 64 + b1 mod 64)%N :: utf8_decode fuel' rest'
        | _ => []
        end
      else if (b <? 240)%N then
        match rest with
        | b1 :: b2 :: rest' =>
            ((b mod 16) * 4096 + (b1 mod 64) * 64 + b2 mod 64)%N
              :: utf8_decode fuel' rest'
        | _ => []
        end
      else
        match rest with
        | b1 :: b2 :: b3 :: rest' =>
            ((b mod 8) * 262144 + (b1 mod 64) * 4096 + (b2 mod 64) * 64
             + b3 mod 64)%N :: utf8_decode fuel' rest'
        | _ => []
        end
    end
  end.

Definition u (s : string) : pystr :=
  let bs := map N_of_ascii (list_ascii_of_string s) in
  utf8_decode (List.length bs) bs.

(** ** Exceptions *)

Inductive exn := ValueError | TypeError | OverflowError.

Inductive result (A : Type) : Type :=
| Ok (a : A)
| Raise (e : exn).

Arguments Ok {A} a.
Arguments Raise {A} e.

Definition bind {A B} (r : result A) (k : A -> result B) : result B :=
  match r with
  | Ok a => k a
  | Raise e => Raise e
  end.

Notation "x <- c1 ;; c2" := (bind c1 (fun x => c2))
  (at level 61, c1 at next level, right associativity).

(** ** Numbers *)

(** A value that is either an [int] or a [float]. *)
Inductive pynum :=
| PyInt (z : Z)
| PyFloat (f : spec_float).

Definition prec : Z := 53.
Definition emax : Z := 1024.

(** The double nearest to [0.05], [0x3FA999999999999A]. *)
Definition float_0_05 : spec_float := S754_finite false 7205759403792794 (-57).

(** Conversion of an [int] operand to [float] ([PyLong_AsDouble]): round to
    nearest even, [OverflowError] when the rounded value leaves the range. *)
Definition float_overflow_bound : Z := 2 ^ 1024 - 2 ^ 970.

Definition int_to_float (z : Z) : result spec_float :=
  if float_overflow_bound <=? Z.abs z then Raise OverflowError
  else Ok (binary_normalize prec emax z 0 false).

(** Comparison of an [int] with a [float], which Python performs exactly. *)
Definition Z_compare_float (z : Z) (f : spec_float) : option comparison :=
  match f with
  | S754_zero _ => Some (z ?= 0)
  | S754_infinity s => Some (if s then Gt else Lt)
  | S754_nan => None
  | S754_finite s m e =>
      let v := cond_Zopp s (Zpos m) in
      Some (if 0 <=? e then z ?= v * 2 ^ e else z * 2 ^ (- e) ?= v)
  end.

Definition Z_le_float (z : Z) (f : spec_float) : bool :=
  match Z_compare_float z f with
  | Some Lt | Some Eq => true
  | _ => false
  end.

Definition Z_lt_float (z : Z) (f : spec_float) : bool :=
  match Z_compare_float z f with
  | Some Lt => true
  | _ => false
  end.

(** [d <= t] for an [int] [d]. *)
Definition le_num (d : Z) (t : pynum) : bool :=
  match t with
  | PyInt z => d <=? z
  | PyFloat f => Z_le_float d f
  end.

(** [min(a, b)] for a [float] [a] and an [int] [b]: [b] when [b < a],
    else [a]. *)
Definition min_float_int (a : spec_float) (b : Z) : pynum :=
  if Z_lt_float b a then PyInt b else PyFloat a.

(** [min(l)] of a list of [int]; [ValueError] on the empty list. *)
Definition py_min (l : list Z) : result Z :=
  match l with
  | [] => Raise ValueError
  | d :: ds => Ok (fold_left Z.min ds d)
  end.

(** A time difference in seconds, or [float('inf')]. *)
Inductive fdiff :=
| Secs (z : Z)
| Inf.

Definition fdiff_ltb (a b : fdiff) : bool :=
  match a, b with
  | Secs x, Secs y => x <? y
  | Secs _, Inf => true
  | Inf, _ => false
  end.

Definition fdiff_eqb (a b : fdiff) : bool :=
  match a, b with
  | Secs x, Secs y => x =? y
  | Inf, Inf => true
  | _, _ => false
  end.

Definition fdiff_leb (a b : fdiff) : bool := negb (fdiff_ltb b a).

(** [min] keeps its first argument unless the second is smaller. *)
Definition fdiff_min (a b : fdiff) : fdiff :=
  if fdiff_ltb b a then b else a.

Definition py_min_fdiff (l : list fdiff) : result fdiff :=
  match l with
  | [] => Raise ValueError
  | d :: ds => Ok (fold_left fdiff_min ds d)
  end.

(** ** Configuration *)

Definition SIZE_TOLERANCE : Z := 1024.
Definition DATE_TOLERANCE : Z := 300.

(** ** Data model *)

(** The dictionary built by [get_img_metadata]; all eleven keys are always
    present. *)
Record ImageRecord := {
  path : pystr;
  filename : pystr;
  size : Z;
  raw_filename : pystr;
  width : Z;
  height : Z;
  create_date : pystr;
  date_time_original : pystr;
  modify_date : pystr;
  camera_model : pystr;
  lens : pystr
}.

(** A cell of a [csv.DictReader] row: the column is not in the header, the
    row is too short for it ([None]), or it holds text. *)
Inductive cell :=
| Missing
| NoneCell
| Str (s : pystr).

(** The columns of a row that the matcher reads. ['Filename'] is read by
    subscript and stripped, so it is a string. *)
Record CsvRow := {
  Filename : pystr;
  File_Size : cell;
  Published_Date : cell
}.

(** ** The Python runtime *)

(** The built-ins the matcher calls and that depend on the Unicode
    database or on library code outside the repository. [int_of_str] is
    [int(s)] ([None] for [ValueError]); [strptime s fmt] is
    [datetime.datetime.strptime(s, fmt)] as the number of seconds of the
    parsed naive date since 0001-01-01 00:00:00 ([None] for [ValueError]). *)
Class PyRuntime := {
  str_lower : pystr -> pystr;
  chr_isdigit : N -> bool;
  chr_isspace : N -> bool;
  int_of_str : pystr -> option Z;
  strptime : pystr -> pystr -> option Z
}.

Section Matcher.

Context {rt : PyRuntime}.

(** [s.strip()] *)
Definition strip (s : pystr) : pystr := strip_by chr_isspace s.

(** [s.split()]: the maximal runs of non-whitespace characters; [cur] is
    the run being read, reversed. *)
Fixpoint split_from (s cur : pystr) : list pystr :=
  match s with
  | [] => match cur with [] => [] | _ => [rev cur] end
  | c :: s' =>
      if chr_isspace c then
        match cur with
        | [] => split_from s' []
        | _ => rev cur :: split_from s' []
        end
      else split_from s' (c :: cur)
  end.

Definition split (s : pystr) : list pystr := split_from s [].

Definition word_in (w : pystr) (ws : list pystr) : bool :=
  existsb (pystr_eqb w) ws.

(** [set(ws)], as the list of the distinct words of [ws]. *)
Fixpoint to_set (ws : list pystr) : list pystr :=
  match ws with
  | [] => []
  | w :: ws' => if word_in w ws' then to_set ws' else w :: to_set ws'
  end.

(** [a.intersection(b)] *)
Definition intersection (a b : list pystr) : list pystr :=
  filter (fun w => word_in w b) a.

(** [get_numbers]: the digits of [s], in order. *)
Definition get_numbers (s : pystr) : pystr := filter chr_isdigit s.

(** [int(csv_row.get('File Size', 0) or 0)] *)
Definition csv_file_size (csv_row : CsvRow) : result Z :=
  match File_Size csv_row with
  | Missing => Ok 0
  | NoneCell => Ok 0
  | Str [] => Ok 0
  | Str s =>
      match int_of_str s with
      | Some z => Ok z
      | None => Raise ValueError
      end
  end.

(** [min(csv_size * 0.05, 100 * 1024) if csv_size > 0 else 0] *)
Definition compute_size_tolerance (csv_size : Z) : result pynum :=
  if 0 <? csv_size then
    f <- int_to_float csv_size ;;
    Ok (min_float_int (SFmul prec emax f float_0_05) (100 * 1024))
  else Ok (PyInt 0).

(** [[m for m, diff in zip(ms, diffs) if keep(diff)]] *)
Definition select {D} (keep : D -> bool) (ms : list ImageRecord)
  (diffs : list D) : list ImageRecord :=
  map fst (filter (fun md => keep (snd md)) (combine ms diffs)).

(** *** [disambiguate_matches] *)

(** [abs(m['size'] - csv_size)] *)
Definition size_diff_to (csv_size : Z) (m : ImageRecord) : Z :=
  Z.abs (size m - csv_size).

Definition fmt_published : pystr := u "%Y-%m-%d %H:%M:%S".
Definition fmt_modified : pystr := u "%Y:%m:%d %H:%M:%S".

(** [datetime.datetime.strptime(csv_row.get('Published Date', ''), ...)] *)
Definition parse_published (csv_row : CsvRow) : result Z :=
  match Published_Date csv_row with
  | Missing =>
      match strptime [] fmt_published with
      | Some d => Ok d
      | None => Raise ValueError
      end
  | NoneCell => Raise TypeError
  | Str s =>
      match strptime s fmt_published with
      | Some d => Ok d
      | None => Raise ValueError
      end
  end.

(** The body of the inner [try]: the distance of a candidate's
    modification date to [csv_date]; the [except] gives [float('inf')]. *)
Definition date_diff (csv_date : Z) (m : ImageRecord) : fdiff :=
  match strptime (before_dot (modify_date m)) fmt_modified with
  | Some img_date => Secs (Z.abs (img_date - csv_date))
  | None => Inf
  end.

(** The body of the outer [try] of step 2. [Ok (Some m)] is its [return];
    [Ok None] is falling out of its end. *)
Definition date_stage (csv_row : CsvRow) (matches : list ImageRecord)
  : result (option ImageRecord) :=
  csv_date <- parse_published csv_row ;;
  let date_diffs := map (date_diff csv_date) matches in
  min_date_diff <- py_min_fdiff date_diffs ;;
  if fdiff_ltb min_date_diff (Secs DATE_TOLERANCE) then
    match select (fdiff_eqb min_date_diff) matches date_diffs with
    | [m] => Ok (Some m)
    | _ => Ok None
    end
  else Ok None.

Definition disambiguate_matches (csv_row : CsvRow)
  (matches : list ImageRecord) : result (option ImageRecord) :=
  match matches with
  | [] => Ok None
  | [m] => Ok (Some m)
  | _ =>
      csv_size <- csv_file_size csv_row ;;
      let size_diff := map (size_diff_to csv_size) matches in
      min_size_diff <- py_min size_diff ;;
      let size_matches := select (Z.eqb min_size_diff) matches size_diff in
      match size_matches with
      | [m] => Ok (Some m)
      | _ =>
          match date_stage csv_row matches with
          | Ok (Some m) => Ok (Some m)
          | Ok None => Ok None
          | Raise _ => Ok None
          end
      end
  end.

(** *** [find_best_match] *)

Definition prefix_JHR : pystr := u "JHR".
Definition prefix_Jobb : pystr := u "Jobb bonus i Lillestrøm kommune".
Definition prefix_SAL : pystr := u "SAL-".
Definition prefix_Overlege : pystr := u "Overlege Jacob Dag Berild".

(** The basename of a candidate as the strategies compare it:
    [os.path.splitext(img['filename'])[0].lower()]. *)
Definition img_base (img : ImageRecord) : pystr :=
  str_lower (fst (splitext (filename img))).

Section Strategies.

(** The local variables of [find_best_match] that the lambdas close over. *)
Variables (file_name base_filename csv_numbers : pystr).
Variables (csv_size : Z) (size_tolerance : pynum).

(** 1. Match by RawFileName (no extension, case insensitive) *)
Definition strategy_1 (img : ImageRecord) : bool :=
  negb (is_empty (raw_filename img))
  && pystr_eqb (str_lower (fst (splitext (raw_filename img)))) base_filename.

(** 2. Exact size match (within 1KB) *)
Definition strategy_2 (img : ImageRecord) : bool :=
  (0 <? csv_size) && (Z.abs (size img - csv_size) <=? 1024).

(** 3. Size match with tolerance (5% or 100KB) *)
Definition strategy_3 (img : ImageRecord) : bool :=
  (0 <? csv_size) && le_num (Z.abs (size img - csv_size)) size_tolerance.

(** 4. Exact filename match (case insensitive) *)
Definition strategy_4 (img : ImageRecord) : bool :=
  pystr_eqb (str_lower (filename img)) (str_lower file_name).

(** 5. Base filename (without extension) matches exactly *)
Definition strategy_5 (img : ImageRecord) : bool :=
  pystr_eqb (img_base img) base_filename.

(** 6. For JHR files, match by number sequence to "Jobb bonus i
    Lillestrøm kommune" files *)
Definition strategy_6 (img : ImageRecord) : bool :=
  startswith file_name prefix_JHR
  && startswith (filename img) prefix_Jobb
  && pystr_eqb (get_numbers (filename img)) csv_numbers.

(** 7. For SAL- files, match by number to "Overlege Jacob Dag Berild"
    files *)
Definition strategy_7 (img : ImageRecord) : bool :=
  startswith file_name prefix_SAL
  && startswith (filename img) prefix_Overlege
  && pystr_eqb (get_numbers (filename img)) csv_numbers.

(** 8. Match by number sequence only if we have numbers *)
Definition strategy_8 (img : ImageRecord) : bool :=
  negb (is_empty csv_numbers)
  && pystr_eqb (get_numbers (filename img)) csv_numbers.

(** 9. Filename contains CSV filename (without extension) or vice versa *)
Definition strategy_9 (img : ImageRecord) : bool :=
  contains (img_base img) base_filename
  || contains base_filename (img_base img).

Definition strategies : list (ImageRecord -> bool) :=
  [strategy_1; strategy_2; strategy_3; strategy_4; strategy_5;
   strategy_6; strategy_7; strategy_8; strategy_9].

(** The size test of the narrowing step and of strategy 3's body. *)
Definition within_tolerance (img : ImageRecord) : bool :=
  le_num (Z.abs (size img - csv_size)) size_tolerance.

(** What the loop does with a strategy that matched more than one
    candidate. *)
Definition resolve_tie (csv_row : CsvRow) (matches : list ImageRecord)
  : result (option ImageRecord) :=
  if 0 <? csv_size then
    match filter within_tolerance matches with
    | [m] => Ok (Some m)
    | _ => disambiguate_matches csv_row matches
    end
  else disambiguate_matches csv_row matches.

(** The loop [for strategy in strategies]; [None] is leaving the loop
    without a [return]. *)
Fixpoint apply_strategies (csv_row : CsvRow)
  (strats : list (ImageRecord -> bool)) (images : list ImageRecord)
  : option (result (option ImageRecord)) :=
  match strats with
  | [] => None
  | strategy :: rest =>
      match filter strategy images with
      | [] => apply_strategies csv_row rest images
      | [m] => Some (Ok (Some m))
      | matches => Some (resolve_tie csv_row matches)
      end
  end.

(** The two tests of the loop that follows the strategies. *)
Definition fallback_by_size (img : ImageRecord) : bool :=
  (0 <? csv_size) && (Z.abs (size img - csv_size) <=? 1024).

Definition fallback_by_words (img : ImageRecord) : bool :=
  let csv_words := to_set (split base_filename) in
  let img_words := to_set (split (img_base img)) in
  let common_words := intersection csv_words img_words in
  (2 <=? Z.of_nat (List.length common_words))
  || existsb (fun word => 5 <? Z.of_nat (List.length word)) common_words.

(** The loop [for img in images] after the strategies. *)
Fixpoint fallback (images : list ImageRecord) : option ImageRecord :=
  match images with
  | [] => None
  | img :: rest =>
      if fallback_by_size img then Some img
      else if fallback_by_words img then Some img
      else fallback rest
  end.

End Strategies.

Definition find_best_match (csv_row : CsvRow) (images : list ImageRecord)
  : result (option ImageRecord) :=
  match images with
  | [] => Ok None
  | _ =>
      let file_name := strip (Filename csv_row) in
      csv_size <- csv_file_size csv_row ;;
      let base_filename := str_lower (fst (splitext file_name)) in
      let csv_numbers := get_numbers file_name in
      size_tolerance <- compute_size_tolerance csv_size ;;
      match apply_strategies csv_size size_tolerance csv_row
              (strategies file_name base_filename csv_numbers csv_size
                 size_tolerance) images with
      | Some r => r
      | None => Ok (fallback base_filename csv_size images)
      end
  end.

End Matcher.

(** ** The routing of [main] *)

(** The values [main] tests its [match] variable against. *)
Inductive pyobj :=
| ObjNone
| ObjStr (s : pystr)
| ObjDict (r : ImageRecord).

Definition as_object (m : option ImageRecord) : pyobj :=
  match m with
  | None => ObjNone
  | Some r => ObjDict r
  end.

(** Truth value; an image dictionary has eleven keys, so it is true. *)
Definition truthy (o : pyobj) : bool :=
  match o with
  | ObjNone => false
  | ObjStr s => negb (is_empty s)
  | ObjDict _ => true
  end.

(** [o == s] for a string [s]. *)
Definition obj_eq_str (o : pyobj) (s : pystr) : bool :=
  match o with
  | ObjStr t => pystr_eqb t s
  | _ => false
  end.

(** The three ways [main] continues with a row. *)
Inductive routing :=
| CountNoMatch
| CountAmbiguous
| ApplyMetadata (r : ImageRecord).

Definition routing_is_ambiguous (r : result routing) : bool :=
  match r with
  | Ok CountAmbiguous => true
  | _ => false
  end.

(** [if not match: ... continue] then [if match == 'ambiguous': ...
    continue], then the use of [match['filename']]. *)
Definition route (o : pyobj) : result routing :=
  if negb (truthy o) then Ok CountNoMatch
  else if obj_eq_str o (u "ambiguous") then Ok CountAmbiguous
  else match o with
       | ObjDict r => Ok (ApplyMetadata r)
       | _ => Raise TypeError
       end.

(** One iteration of the loop of [main], up to the routing decision. *)
Definition main_row {rt : PyRuntime} (row : CsvRow)
  (images : list ImageRecord) : result routing :=
  m <- find_best_match row images ;;
  route (as_object m).

(** ** A runtime for Latin-1 text *)

Module Latin1.

Definition in_range (lo hi c : N) : bool := ((lo <=? c) && (c <=? hi))%N.

(** [str.lower] of one character below 256: A-Z, and the accented
    capitals U+00C0..U+00DE except the multiplication sign. *)
Definition lower_chr (c : N) : N :=
  if in_range 65 90 c then (c + 32)%N
  else if in_range 192 222 c && negb (N.eqb c 215) then (c + 32)%N
  else c.

Definition lower (s : pystr) : pystr := map lower_chr s.

(** [str.isdigit] below 256: 0-9 and the superscripts two, three, one. *)
Definition isdigit (c : N) : bool :=
  in_range 48 57 c || N.eqb c 178 || N.eqb c 179 || N.eqb c 185.

(** [str.isspace] below 256. *)
Definition isspace (c : N) : bool :=
  in_range 9 13 c || in_range 28 32 c || N.eqb c 133 || N.eqb c 160.

Definition digit_value (c : N) : option Z :=
  if in_range 48 57 c then Some (Z.of_N c - 48) else None.

(** The digits of an integer literal: decimal digits, with single
    underscores allowed between two digits. *)
Fixpoint parse_digits (s : pystr) (acc : Z) (after_digit : bool) : option Z :=
  match s with
  | [] => if after_digit then Some acc else None
  | c :: s' =>
      if N.eqb c 95 then
        if after_digit then parse_digits s' acc false else None
      else
        match digit_value c with
        | Some d => parse_digits s' (10 * acc + d) true
        | None => None
        end
  end.

(** [int(s)]: surrounding whitespace, an optional sign, the digits (the
    interpreter's limit on the number of digits is not modelled). *)
Definition int_of_str (s : pystr) : option Z :=
  match strip_by isspace s with
  | 43%N :: t => parse_digits t 0 false
  | 45%N :: t => option_map Z.opp (parse_digits t 0 false)
  | t => parse_digits t 0 false
  end.

(** *** [strptime] for the two formats of the matcher *)

Definition parser (A : Type) := pystr -> option (A * pystr).

(** Two digits accepted by [ok]. *)
Definition two_digits (ok : Z -> Z -> bool) : parser Z :=
  fun s =>
    match s with
    | c1 :: c2 :: rest =>
        match digit_value c1, digit_value c2 with
        | Some a, Some b => if ok a b then Some (10 * a + b, rest) else None
        | _, _ => None
        end
    | _ => None
    end.

(** One digit accepted by [ok]. *)
Definition one_digit (ok : Z -> bool) : parser Z :=
  fun s =>
    match s with
    | c :: rest =>
        match digit_value c with
        | Some a => if ok a then Some (a, rest) else None
        | None => None
        end
    | [] => None
    end.

Definition orelse {A} (p q : parser A) : parser A :=
  fun s => match p s with Some r => Some r | None => q s end.

Definition literal (c : N) : parser unit :=
  fun s =>
    match s with
    | x :: rest => if N.eqb x c then Some (tt, rest) else None
    | [] => None
    end.

(** [%Y]: four digits. *)
Definition p_year : parser Z :=
  fun s =>
    match two_digits (fun _ _ => true) s with
    | Some (hi, rest) =>
        match two_digits (fun _ _ => true) rest with
        | Some (lo, rest') => Some (100 * hi + lo, rest')
        | None => None
        end
    | None => None
    end.

(** [%m]: [1[0-2]|0[1-9]|[1-9]] *)
Definition p_month : parser Z :=
  orelse
    (two_digits (fun a b => ((a =? 1) && (b <=? 2)) || ((a =? 0) && (1 <=? b))))
    (one_digit (fun a => 1 <=? a)).

(** [%d]: [3[0-1]|[1-2]\d|0[1-9]|[1-9]| [1-9]] *)
Definition p_day : parser Z :=
  orelse
    (two_digits (fun a b =>
       ((a =? 3) && (b <=? 1)) || (a =? 1) || (a =? 2)
       || ((a =? 0) && (1 <=? b))))
    (orelse (one_digit (fun a => 1 <=? a))
       (fun s =>
          match literal 32 s with
          | Some (_, rest) => one_digit (fun a => 1 <=? a) rest
          | None => None
          end)).

(** [%H]: [2[0-3]|[0-1]\d|\d] *)
Definition p_hour : parser Z :=
  orelse (two_digits (fun a b => ((a =? 2) && (b <=? 3)) || (a <=? 1)))
         (one_digit (fun _ => true)).

(** [%M]: [[0-5]\d|\d] *)
Definition p_minute : parser Z :=
  orelse (two_digits (fun a _ => a <=? 5)) (one_digit (fun _ => true)).

(** [%S]: [6[0-1]|[0-5]\d|\d] *)
Definition p_second : parser Z :=
  orelse (two_digits (fun a b => ((a =? 6) && (b <=? 1)) || (a <=? 5)))
         (one_digit (fun _ => true)).

(** The blank of the format: one or more whitespace characters. *)
Definition p_blank : parser unit :=
  fun s =>
    match s with
    | c :: rest => if isspace c then Some (tt, lstrip_by isspace rest) else None
    | [] => None
    end.

Definition is_leap (y : Z) : bool :=
  ((y mod 4 =? 0) && negb (y mod 100 =? 0)) || (y mod 400 =? 0).

Definition days_in_month (y m : Z) : Z :=
  if m =? 2 then (if is_leap y then 29 else 28)
  else if (m =? 4) || (m =? 6) || (m =? 9) || (m =? 11) then 30
  else 31.

Definition days_before_year (y : Z) : Z :=
  let p := y - 1 in p * 365 + p / 4 - p / 100 + p / 400.

Fixpoint days_before_month (y : Z) (m : nat) : Z :=
  match m with
  | O => 0
  | S m' => days_before_month y m' + days_in_month y (Z.of_nat m)
  end.

(** The seconds from 0001-01-01 00:00:00 to a valid date, as the
    [datetime] constructor accepts it. *)
Definition datetime (y mo d h mi s : Z) : option Z :=
  if (1 <=? y) && (d <=? days_in_month y mo) && (s <=? 59) then
    Some ((days_before_year y + days_before_month y (Z.to_nat (mo - 1)) + (d - 1))
            * 86400 + h * 3600 + mi * 60 + s)
  else None.

(** [%Y<sep>%m<sep>%d %H:%M:%S], with nothing left over. *)
Definition parse_datetime (sep : N) (s : pystr) : option Z :=
  match p_year s with
  | Some (y, s1) =>
  match literal sep s1 with
  | Some (_, s2) =>
  match p_month s2 with
  | Some (mo, s3) =>
  match literal sep s3 with
  | Some (_, s4) =>
  match p_day s4 with
  | Some (d, s5) =>
  match p_blank s5 with
  | Some (_, s6) =>
  match p_hour s6 with
  | Some (h, s7) =>
  match literal 58 s7 with
  | Some (_, s8) =>
  match p_minute s8 with
  | Some (mi, s9) =>
  match literal 58 s9 with
  | Some (_, s10) =>
  match p_second s10 with
  | Some (sec, []) => datetime y mo d h mi sec
  | _ => None
  end
  | None => None end
  | None => None end
  | None => None end
  | None => None end
  | None => None end
  | None => None end
  | None => None end
  | None => None end
  | None => None end
  | None => None end.

Definition strptime (s fmt : pystr) : option Z :=
  if pystr_eqb fmt (u "%Y-%m-%d %H:%M:%S") then parse_datetime 45 s
  else if pystr_eqb fmt (u "%Y:%m:%d %H:%M:%S") then parse_datetime 58 s
  else None.

End Latin1.

#[export] Instance latin1 : PyRuntime := {|
  str_lower := Latin1.lower;
  chr_isdigit := Latin1.isdigit;
  chr_isspace := Latin1.isspace;
  int_of_str := Latin1.int_of_str;
  strptime := Latin1.strptime
|}.

(** ** The image index *)

Definition ends_with_slash (a : pystr) : bool :=
  match rev a with
  | c :: _ => N.eqb c chr_slash
  | [] => false
  end.

(** [os.path.join(a, b)] of [posixpath]. *)
Definition path_join (a b : pystr) : pystr :=
  if startswith b [chr_slash] then b
  else if is_empty a || ends_with_slash a then a ++ b
  else a ++ chr_slash :: b.

Section Index.

(** [os.getcwd()] at import time. *)
Variable WORKDIR : pystr.

Definition DIR_DONE : pystr := path_join WORKDIR (u "Done").
Definition DIR_FAILED : pystr := path_join WORKDIR (u "Failed").
Definition DIR_NOMATCH : pystr := path_join WORKDIR (u "NoMatch").
Definition DIR_AMBIG : pystr := path_join WORKDIR (u "Ambiguous").

(** [any(d in img_path for d in (DIR_DONE, DIR_FAILED, DIR_NOMATCH,
    DIR_AMBIG))] *)
Definition in_status_dir (img_path : pystr) : bool :=
  existsb (fun d => contains img_path d)
    [DIR_DONE; DIR_FAILED; DIR_NOMATCH; DIR_AMBIG].

(** The directory as the indexer reads it: the paths [glob] returns for a
    pattern, [os.path.isfile], and [get_img_metadata], whose dictionary is
    never empty. *)
Variable glob : pystr -> list pystr.
Variable isfile : pystr -> bool.
Variable get_img_metadata : pystr -> ImageRecord.


(** The paths of one pattern that the indexer keeps. *)
Definition indexable (img_path : pystr) : bool :=
  isfile img_path && negb (in_status_dir img_path).


End Index.

(** ** The metadata writer *)

(** The descriptive columns of a row. *)
Record CsvText := {
  Title : cell;
  Description : cell;
  Tags : cell;
  Kreditering : cell;
  Personer_i_bildet : cell
}.

(** A row of the reader: the columns the matcher reads and the text. *)
Record MetadataRow := {
  matching : CsvRow;
  text : CsvText
}.

(** What [shutil.move] does: it returns, raises [FileNotFoundError], or
    raises another exception. *)
Inductive move_outcome :=
| Moved
| MoveNotFound
| MoveFailed.

(** The operating system as the writer and the loop of [main] use it, over
    a state [World]: [os.path.exists], [subprocess.run] (the return code,
    or [None] when it raises) and [shutil.move]. *)
Record System (World : Type) := {
  os_path_exists : World -> pystr -> bool;
  subprocess_run : World -> list pystr -> World * option Z;
  shutil_move : World -> pystr -> pystr -> World * move_outcome
}.

Arguments os_path_exists {World} _ _ _.
Arguments subprocess_run {World} _ _ _.
Arguments shutil_move {World} _ _ _.

Definition EXIFTOOL : pystr := u "/opt/homebrew/bin/exiftool".

Section Writer.

Context {rt : PyRuntime}.

(** [csv_row.get(key, '').strip()]; [None] when the cell is [None] and
    [strip] raises [AttributeError]. *)
Definition text_of (c : cell) : option pystr :=
  match c with
  | Missing => Some (strip [])
  | NoneCell => None
  | Str s => Some (strip s)
  end.

Definition is_none_cell (c : cell) : bool :=
  match c with
  | NoneCell => true
  | _ => false
  end.

(** One of the five text cells is [None]: the row is shorter than the
    header. *)
Definition text_has_none (t : CsvText) : bool :=
  is_none_cell (Title t) || is_none_cell (Description t)
  || is_none_cell (Tags t) || is_none_cell (Kreditering t)
  || is_none_cell (Personer_i_bildet t).

(** The dictionary [metadata], in the order of its keys; [None] when
    building it raises. *)
Definition build_metadata (img_path : pystr) (t : CsvText)
  : option (list (pystr * pystr)) :=
  let ext := str_lower (snd (splitext img_path)) in
  if pystr_eqb ext (u ".png") then
    match text_of (Title t), text_of (Description t), text_of (Tags t),
          text_of (Kreditering t), text_of (Personer_i_bildet t) with
    | Some title, Some description, Some tags, Some credit, Some people =>
        Some [(u "XMP:Title", title);
              (u "XMP:Description", description);
              (u "XMP:Subject", tags);
              (u "XMP:Rights", credit);
              (u "XMP:PersonInImage", people)]
    | _, _, _, _, _ => None
    end
  else
    match text_of (Title t), text_of (Description t),
          text_of (Kreditering t), text_of (Tags t),
          text_of (Personer_i_bildet t) with
    | Some title, Some description, Some credit, Some tags, Some people =>
        Some [(u "IPTC:Headline", title);
              (u "IPTC:Caption-Abstract", description);
              (u "IPTC:CopyrightNotice", credit);
              (u "IPTC:Keywords", tags);
              (u "XMP:PersonInImage", people)]
    | _, _, _, _, _ => None
    end.

(** [f'-{tag}={value}'] *)
Definition tag_arg (tag value : pystr) : pystr :=
  u "-" ++ tag ++ u "=" ++ value.

(** The arguments added by the loop over [metadata.items()]. *)
Fixpoint tag_args (metadata : list (pystr * pystr)) : list pystr :=
  match metadata with
  | [] => []
  | (tag, value) :: rest =>
      if is_empty value then tag_args rest
      else tag_arg tag value :: tag_args rest
  end.

Definition build_command (img_path : pystr)
  (metadata : list (pystr * pystr)) : list pystr :=
  [EXIFTOOL; u "-overwrite_original"; u "-charset"; u "IPTC=UTF8";
   u "-charset"; u "XMP=UTF8"]
  ++ tag_args metadata ++ [img_path].

(** [apply_iptc_metadata]; every exception of its body is caught and
    gives [False]. *)
Definition apply_iptc_metadata {World} (sys : System World) (w : World)
  (img_path : pystr) (t : CsvText) (dry_run : bool) : World * bool :=
  if negb (os_path_exists sys w img_path) then (w, false)
  else
    match build_metadata img_path t with
    | None => (w, false)
    | Some metadata =>
        let cmd := build_command img_path metadata in
        if dry_run then (w, true)
        else
          match subprocess_run sys w cmd with
          | (w', Some returncode) =>
              if negb (returncode =? 0) then (w', false) else (w', true)
          | (w', None) => (w', false)
          end
    end.

(** ** The loop of [main] *)

Record Counters := {
  processed : Z;
  success : Z;
  failed : Z;
  no_match : Z;
  ambiguous : Z
}.

Definition no_counts : Counters :=
  {| processed := 0; success := 0; failed := 0; no_match := 0;
     ambiguous := 0 |}.

Definition count_processed (c : Counters) : Counters :=
  {| processed := processed c + 1; success := success c;
     failed := failed c; no_match := no_match c;
     ambiguous := ambiguous c |}.

Definition count_success (c : Counters) : Counters :=
  {| processed := processed c; success := success c + 1;
     failed := failed c; no_match := no_match c;
     ambiguous := ambiguous c |}.

Definition count_failed (c : Counters) : Counters :=
  {| processed := processed c; success := success c;
     failed := failed c + 1; no_match := no_match c;
     ambiguous := ambiguous c |}.

Definition count_no_match (c : Counters) : Counters :=
  {| processed := processed c; success := success c;
     failed := failed c; no_match := no_match c + 1;
     ambiguous := ambiguous c |}.

Definition count_ambiguous (c : Counters) : Counters :=
  {| processed := processed c; success := success c;
     failed := failed c; no_match := no_match c;
     ambiguous := ambiguous c + 1 |}.

(** The body of [for row in reader], on the index [images] built before
    the loop. An exception of [find_best_match] leaves the loop. *)
Definition process_row {World} (sys : System World) (WORKDIR : pystr)
  (dry_run : bool) (images : list ImageRecord) (st : World * Counters)
  (row : MetadataRow) : result (World * Counters) :=
  let w := fst st in
  let c := count_processed (snd st) in
  m <- find_best_match (matching row) images ;;
  r <- route (as_object m) ;;
  match r with
  | CountNoMatch => Ok (w, count_no_match c)
  | CountAmbiguous => Ok (w, count_ambiguous c)
  | ApplyMetadata mt =>
      let dest_path := path_join (DIR_DONE WORKDIR) (filename mt) in
      if os_path_exists sys w dest_path then Ok (w, count_success c)
      else
        match apply_iptc_metadata sys w (path mt) (text row) dry_run with
        | (w1, true) =>
            let c1 := count_success c in
            if dry_run then Ok (w1, c1)
            else
              match shutil_move sys w1 (path mt) dest_path with
              | (w2, Moved) => Ok (w2, c1)
              | (w2, MoveNotFound) => Ok (w2, c1)
              | (w2, MoveFailed) => Ok (w2, count_failed c1)
              end
        | (w1, false) =>
            let c1 := count_failed c in
            if dry_run then Ok (w1, c1)
            else
              let failed_path :=
                path_join (DIR_FAILED WORKDIR) (filename mt) in
              Ok (fst (shutil_move sys w1 (path mt) failed_path), c1)
        end
  end.

Fixpoint process_rows {World} (sys : System World) (WORKDIR : pystr)
  (dry_run : bool) (images : list ImageRecord) (st : World * Counters)
  (rows : list MetadataRow) : result (World * Counters) :=
  match rows with
  | [] => Ok st
  | row :: rest =>
      st' <- process_row sys WORKDIR dry_run images st row ;;
      process_rows sys WORKDIR dry_run images st' rest
  end.

End Writer.

(** ** Vocabulary of the specification *)

Section Vocabulary.

Context {rt : PyRuntime}.

(** The row's basename as [find_best_match] computes it. *)
Definition row_base (row : CsvRow) : pystr :=
  str_lower (fst (splitext (strip (Filename row)))).

(** The strategy list of a row whose declared size and tolerance are
    [csv_size] and [tol]. *)
Definition ladder (row : CsvRow) (csv_size : Z) (tol : pynum)
  : list (ImageRecord -> bool) :=
  strategies (strip (Filename row)) (row_base row)
    (get_numbers (strip (Filename row))) csv_size tol.

Definition is_nil {A} (l : list A) : bool :=
  match l with [] => true | _ => false end.

Definition matches_nothing (images : list ImageRecord)
  (strategy : ImageRecord -> bool) : bool :=
  is_nil (filter strategy images).

(** Every strategy predicate matches zero candidates. *)
Definition no_strategy_matches (row : CsvRow) (csv_size : Z) (tol : pynum)
  (images : list ImageRecord) : bool :=
  forallb (matches_nothing images) (ladder row csv_size tol).

(** Section 4.2, "for each strategy": the outcome decided by a strategy
    that matched the candidates [matches] (at least one): one match is
    resolved; several are first narrowed to the candidates within the
    relative tolerance, resolving a single survivor, and otherwise the
    whole tie set goes to the disambiguator. *)
Definition spec_strategy_outcome (row : CsvRow) (csv_size : Z) (tol : pynum)
  (matches : list ImageRecord) : result (option ImageRecord) :=
  match matches with
  | [m] => Ok (Some m)
  | _ =>
      match filter (within_tolerance csv_size tol) matches with
      | [m] => Ok (Some m)
      | _ => disambiguate_matches row matches
      end
  end.

(** The declared size field is one the matcher reads without a fault:
    absent, [None], empty, or an integer literal small enough to be
    converted to a [float]. *)
Definition size_field_readable (row : CsvRow) : bool :=
  match File_Size row with
  | Missing | NoneCell | Str [] => true
  | Str s =>
      match int_of_str s with
      | Some z => z <? float_overflow_bound
      | None => false
      end
  end.

(** The candidates of [matches] at minimal absolute size difference. *)
Definition closest_in_size (csv_size : Z) (matches : list ImageRecord)
  : list ImageRecord :=
  filter (fun m =>
            forallb (fun x => size_diff_to csv_size m <=? size_diff_to csv_size x)
              matches) matches.

(** The candidates of [matches] whose modification time is less than
    [DATE_TOLERANCE] seconds from [csv_date] and at least as near as that of
    every candidate of [matches]. *)
Definition nearest_in_time (csv_date : Z) (matches : list ImageRecord)
  : list ImageRecord :=
  filter (fun m =>
            fdiff_ltb (date_diff csv_date m) (Secs DATE_TOLERANCE)
            && forallb (fun x =>
                 negb (fdiff_ltb (date_diff csv_date x) (date_diff csv_date m)))
                 matches) matches.

(** The disambiguation procedure in the words of section 4.3, with the
    time comparison ranging over the whole tie set. *)
Definition spec_disambiguate (row : CsvRow) (csv_size : Z)
  (matches : list ImageRecord) : option ImageRecord :=
  match closest_in_size csv_size matches with
  | [m] => Some m
  | _ =>
      match parse_published row with
      | Ok csv_date =>
          match nearest_in_time csv_date matches with
          | [m] => Some m
          | _ => None
          end
      | Raise _ => None
      end
  end.

End Vocabulary.

(** ** Example inputs *)

(** The record [get_img_metadata] builds for a file [name] of [sz] bytes
    in the working directory, with the given [RawFileName] and
    [FileModifyDate] and no other EXIF data. *)
Definition indexed (name : string) (sz : Z) (raw mdate : pystr)
  : ImageRecord :=
  {| path := u "/work/" ++ u name; filename := u name; size := sz;
     raw_filename := raw; width := 0; height := 0; create_date := [];
     date_time_original := []; modify_date := mdate;
     camera_model := []; lens := [] |}.

(** Scenario B of the specification. *)
Definition row_JHR_42 : CsvRow :=
  {| Filename := u "JHR-42.jpg"; File_Size := Missing;
     Published_Date := Missing |}.

Definition row_JHR_042 : CsvRow :=
  {| Filename := u "JHR-042.jpg"; File_Size := Missing;
     Published_Date := Missing |}.

Definition jobb_042 : ImageRecord :=
  indexed "Jobb bonus i Lillestrøm kommune 042.jpg" 1000 [] [].

Definition jobb_043 : ImageRecord :=
  indexed "Jobb bonus i Lillestrøm kommune 043.jpg" 2000 [] [].

(** Two files that share the digits of the row's name and cannot be told
    apart by size or date. *)
Definition row_x1 : CsvRow :=
  {| Filename := u "x1.jpg"; File_Size := Missing;
     Published_Date := Missing |}.

Definition a1_100 : ImageRecord := indexed "a1.jpg" 100 [] [].
Definition b1_100 : ImageRecord := indexed "b1.jpg" 100 [] [].
Definition b1_200 : ImageRecord := indexed "b1.jpg" 200 [] [].
Definition c1_300 : ImageRecord := indexed "c1.jpg" 300 [] [].

(** A row that matches by words only. *)
Definition row_words (file_size : cell) : CsvRow :=
  {| Filename := u "photo holiday.jpg"; File_Size := file_size;
     Published_Date := Missing |}.

Definition small_zzz : ImageRecord := indexed "zzz.png" 500 [] [].

Definition holiday_album : ImageRecord :=
  indexed "holiday album photo.jpg" 9000000 [] [].

Definition unrelated : ImageRecord := indexed "qqq.png" 9000000 [] [].

(** A tie of three, one of which is far in size and near in time. *)
Definition row_dated : CsvRow :=
  {| Filename := u "x1.jpg"; File_Size := Str (u "1000");
     Published_Date := Str (u "2024-01-01 10:00:00") |}.

Definition near_a : ImageRecord := indexed "a1.jpg" 1010 [] [].
Definition near_b : ImageRecord := indexed "b1.jpg" 990 [] [].
Definition far_c : ImageRecord := indexed "c1.jpg" 1500 [] (u "2024:01:01 10:00:30").

(** Rows whose size column is not an integer literal, or is the literal
    zero. *)
Definition row_bad_size : CsvRow :=
  {| Filename := u "x1.jpg"; File_Size := Str (u "12 KB");
     Published_Date := Missing |}.

Definition row_zero_size : CsvRow :=
  {| Filename := u "photo.jpg"; File_Size := Str (u "0");
     Published_Date := Missing |}.

Definition exactly_1024 : ImageRecord := indexed "zzz.png" 1024 [] [].

(** Candidates 1024 and 1025 bytes away from a declared size of 5000000. *)
Definition off_by_1024 : ImageRecord := indexed "qqq.png" 5001024 [] [].
Definition off_by_1025 : ImageRecord := indexed "qqq.png" 5001025 [] [].

(** A candidate 100 bytes away from that declared size. *)
Definition off_by_100 : ImageRecord := indexed "qqq.png" 5000100 [] [].

(** A row whose size column is the integer literal 10^400. *)
Definition row_huge_size : CsvRow :=
  {| Filename := u "x1.jpg"; File_Size := Str (u "1" ++ repeat 48%N 400);
     Published_Date := Missing |}.

(** A row whose optional columns hold the sentinels and an unreadable
    date. *)
Definition row_sentinels : CsvRow :=
  {| Filename := u "x1.jpg"; File_Size := Str [];
     Published_Date := Str (u "yesterday") |}.

(** A directory as the set of its paths; [exiftool] returns the code
    [rc]; a move of a path that is not there raises
    [FileNotFoundError]. *)
Definition has_path (w : list pystr) (p : pystr) : bool :=
  existsb (pystr_eqb p) w.

Definition directory (rc : Z) : System (list pystr) :=
  {| os_path_exists := has_path;
     subprocess_run := fun w _ => (w, Some rc);
     shutil_move := fun w src dst =>
       if has_path w src
       then (dst :: filter (fun p => negb (pystr_eqb p src)) w, Moved)
       else (w, MoveNotFound) |}.

Definition no_text : CsvText :=
  {| Title := Str (u "A title"); Description := Missing; Tags := Str [];
     Kreditering := Str (u " Photo: NN "); Personer_i_bildet := Missing |}.

Definition short_text : CsvText :=
  {| Title := Str (u "A title"); Description := NoneCell; Tags := NoneCell;
     Kreditering := NoneCell; Personer_i_bildet := NoneCell |}.

Definition reader_rows : list MetadataRow :=
  [{| matching := row_x1; text := no_text |};
   {| matching := row_JHR_42; text := no_text |};
   {| matching := row_x1; text := short_text |}].

Definition work : pystr := u "/work".

Definition bad_then_good : list MetadataRow :=
  [{| matching := row_bad_size; text := no_text |};
   {| matching := row_x1; text := no_text |}].

(** A row that names the camera's original file, a candidate that
    carries that name, and another candidate of the declared size. *)
Definition row_dsc : CsvRow :=
  {| Filename := u "dsc_0042.jpg"; File_Size := Str (u "5000000");
     Published_Date := Missing |}.

Definition raw_named : ImageRecord :=
  indexed "export 7.jpg" 123 (u "DSC_0042.NEF") [].

Definition same_size_decoy : ImageRecord :=
  indexed "other.jpg" 5000000 [] [].

Definition two_files : list pystr := [u "/work/a1.jpg"; u "/work/b1.jpg"].

Definition blank_row : CsvRow :=
  {| Filename := u "  "; File_Size := Missing; Published_Date := Missing |}.

(** ** Properties *)

Section Properties.

Context {rt : PyRuntime}.

(** *** Lists, minima and selections *)

Lemma select_map {D} (keep : D -> bool) (f : ImageRecord -> D)
  (ms : list ImageRecord) :
  select keep ms (map f ms) = filter (fun m => keep (f m)) ms.
Proof.
  unfold select.
  induction ms as [|a ms IH]; simpl; [reflexivity|].
  destruct (keep (f a)); simpl; now rewrite IH.
Qed.

Lemma filter_singleton_In {A} (p : A -> bool) (l : list A) (x : A) :
  filter p l = [x] -> In x l /\ p x = true.
Proof.
  intros H. apply filter_In. rewrite H. now left.
Qed.

Lemma fold_min_lower (ds : list Z) :
  forall d x, In x (d :: ds) -> fold_left Z.min ds d <= x.
Proof.
  induction ds as [|e ds IH]; simpl; intros d x Hx.
  - destruct Hx as [->|[]]. lia.
  - destruct Hx as [->|[->|Hx]].
    + specialize (IH (Z.min x e) (Z.min x e) (or_introl eq_refl)). lia.
    + specialize (IH (Z.min d x) (Z.min d x) (or_introl eq_refl)). lia.
    + apply IH. now right.
Qed.

Lemma fold_min_attained (ds : list Z) :
  forall d, In (fold_left Z.min ds d) (d :: ds).
Proof.
  induction ds as [|e ds IH]; simpl; intros d.
  - now left.
  - destruct (IH (Z.min d e)) as [H|H].
    + rewrite <- H. destruct (Z.min_spec d e) as [[_ ->]|[_ ->]]; auto.
    + auto.
Qed.

(** The candidates whose difference equals the minimum are those whose
    difference is below every other one. *)
Lemma at_minimum_iff (f : ImageRecord -> Z) (m0 : ImageRecord)
  (ms : list ImageRecord) (m : ImageRecord) :
  In m (m0 :: ms) ->
  (fold_left Z.min (map f ms) (f m0) =? f m)
  = forallb (fun x => f m <=? f x) (m0 :: ms).
Proof.
  intros Hm.
  set (mn := fold_left Z.min (map f ms) (f m0)).
  assert (Hlow : forall x, In x (m0 :: ms) -> mn <= f x).
  { intros x Hx. apply fold_min_lower.
    change (f m0 :: map f ms) with (map f (m0 :: ms)). now apply in_map. }
  assert (Hat : exists x, In x (m0 :: ms) /\ f x = mn).
  { pose proof (fold_min_attained (map f ms) (f m0)) as H.
    change (f m0 :: map f ms) with (map f (m0 :: ms)) in H.
    apply in_map_iff in H. destruct H as [x [Hx Hin]]. eauto. }
  apply eq_true_iff_eq. rewrite Z.eqb_eq, forallb_forall. split.
  - intros E x Hx. apply Z.leb_le. rewrite <- E. now apply Hlow.
  - intros H. destruct Hat as [x [Hx E]].
    specialize (H x Hx). apply Z.leb_le in H.
    specialize (Hlow m Hm). lia.
Qed.

Lemma fdiff_leb_refl (a : fdiff) : fdiff_leb a a = true.
Proof. destruct a; unfold fdiff_leb; simpl; [|reflexivity]. now rewrite Z.ltb_irrefl. Qed.

Lemma fdiff_leb_trans (a b c : fdiff) :
  fdiff_leb a b = true -> fdiff_leb b c = true -> fdiff_leb a c = true.
Proof.
  unfold fdiff_leb. destruct a, b, c; simpl; try congruence; try reflexivity.
  rewrite !negb_true_iff, !Z.ltb_ge. lia.
Qed.

Lemma fdiff_leb_antisym (a b : fdiff) :
  fdiff_leb a b = true -> fdiff_leb b a = true -> fdiff_eqb a b = true.
Proof.
  unfold fdiff_leb. destruct a, b; simpl; try congruence; try reflexivity.
  rewrite !negb_true_iff, !Z.ltb_ge, Z.eqb_eq. lia.
Qed.

Lemma fdiff_eqb_leb (a b : fdiff) :
  fdiff_eqb a b = true -> fdiff_leb b a = true.
Proof.
  unfold fdiff_leb. destruct a, b; simpl; try congruence; try reflexivity.
  rewrite negb_true_iff, Z.ltb_ge, Z.eqb_eq. lia.
Qed.

Lemma fdiff_min_leb_l (a b : fdiff) : fdiff_leb (fdiff_min a b) a = true.
Proof.
  unfold fdiff_min. destruct (fdiff_ltb b a) eqn:E.
  - unfold fdiff_leb. destruct a, b; simpl in *; try congruence; try reflexivity.
    rewrite negb_true_iff, Z.ltb_ge. apply Z.ltb_lt in E. lia.
  - apply fdiff_leb_refl.
Qed.

Lemma fdiff_min_leb_r (a b : fdiff) : fdiff_leb (fdiff_min a b) b = true.
Proof.
  unfold fdiff_min. destruct (fdiff_ltb b a) eqn:E.
  - apply fdiff_leb_refl.
  - unfold fdiff_leb. now rewrite E.
Qed.

Lemma fold_fdiff_min_lower (ds : list fdiff) :
  forall d x, In x (d :: ds) -> fdiff_leb (fold_left fdiff_min ds d) x = true.
Proof.
  induction ds as [|e ds IH]; simpl; intros d x Hx.
  - destruct Hx as [->|[]]. apply fdiff_leb_refl.
  - destruct Hx as [->|[->|Hx]].
    + eapply fdiff_leb_trans; [apply IH; now left|apply fdiff_min_leb_l].
    + eapply fdiff_leb_trans; [apply IH; now left|apply fdiff_min_leb_r].
    + apply IH. now right.
Qed.

Lemma fold_fdiff_min_attained (ds : list fdiff) :
  forall d, In (fold_left fdiff_min ds d) (d :: ds).
Proof.
  induction ds as [|e ds IH]; simpl; intros d.
  - now left.
  - destruct (IH (fdiff_min d e)) as [H|H]; [|auto].
    rewrite <- H. unfold fdiff_min. destruct (fdiff_ltb e d); auto.
Qed.

Lemma fdiff_ltb_leb_trans (a b c : fdiff) :
  fdiff_leb a b = true -> fdiff_ltb b c = true -> fdiff_ltb a c = true.
Proof.
  unfold fdiff_leb. destruct a, b, c; simpl; try congruence; try reflexivity.
  rewrite negb_true_iff, Z.ltb_ge, !Z.ltb_lt. lia.
Qed.

Lemma fdiff_eqb_ltb (a b c : fdiff) :
  fdiff_eqb a b = true -> fdiff_ltb a c = fdiff_ltb b c.
Proof.
  destruct a, b, c; simpl; try congruence.
  rewrite Z.eqb_eq. now intros ->.
Qed.

(** The same for time differences, together with the tolerance test. *)
Lemma at_time_minimum_iff (f : ImageRecord -> fdiff) (bound : fdiff)
  (m0 : ImageRecord) (ms : list ImageRecord) (m : ImageRecord) :
  In m (m0 :: ms) ->
  let mn := fold_left fdiff_min (map f ms) (f m0) in
  fdiff_ltb mn bound && fdiff_eqb mn (f m)
  = fdiff_ltb (f m) bound
    && forallb (fun x => negb (fdiff_ltb (f x) (f m))) (m0 :: ms).
Proof.
  intros Hm mn.
  assert (Hlow : forall x, In x (m0 :: ms) -> fdiff_leb mn (f x) = true).
  { intros x Hx. apply fold_fdiff_min_lower.
    change (f m0 :: map f ms) with (map f (m0 :: ms)). now apply in_map. }
  assert (Hat : exists x, In x (m0 :: ms) /\ f x = mn).
  { pose proof (fold_fdiff_min_attained (map f ms) (f m0)) as H.
    change (f m0 :: map f ms) with (map f (m0 :: ms)) in H.
    apply in_map_iff in H. destruct H as [x [Hx Hin]]. eauto. }
  apply eq_true_iff_eq. rewrite !andb_true_iff, forallb_forall. split.
  - intros [Hb E]. split.
    + now rewrite <- (fdiff_eqb_ltb _ _ _ E).
    + intros x Hx. change (fdiff_leb (f m) (f x) = true).
      eapply fdiff_leb_trans; [apply fdiff_eqb_leb; exact E|now apply Hlow].
  - intros [Hb H]. destruct Hat as [x [Hx E]].
    assert (Hmx : fdiff_leb (f m) mn = true).
    { rewrite <- E. exact (H x Hx). }
    split.
    + eapply fdiff_ltb_leb_trans; [|exact Hb]. now apply Hlow.
    + apply fdiff_leb_antisym; [now apply Hlow|exact Hmx].
Qed.

(** *** The disambiguator *)

Lemma closest_in_size_select (csv_size : Z) (m0 : ImageRecord)
  (ms : list ImageRecord) :
  select (Z.eqb (fold_left Z.min (map (size_diff_to csv_size) ms)
                   (size_diff_to csv_size m0)))
    (m0 :: ms) (map (size_diff_to csv_size) (m0 :: ms))
  = closest_in_size csv_size (m0 :: ms).
Proof.
  rewrite select_map. unfold closest_in_size.
  apply filter_ext_in. intros m Hm.
  now apply at_minimum_iff.
Qed.

Lemma date_stage_char (row : CsvRow) (m0 : ImageRecord)
  (ms : list ImageRecord) :
  match date_stage row (m0 :: ms) with
  | Ok (Some m) => Ok (Some m)
  | Ok None => Ok None
  | Raise _ => Ok None
  end
  = Ok (match parse_published row with
        | Ok csv_date =>
            match nearest_in_time csv_date (m0 :: ms) with
            | [m] => Some m
            | _ => None
            end
        | Raise _ => None
        end).
Proof.
  unfold date_stage.
  destruct (parse_published row) as [csv_date|e]; [|reflexivity].
  cbn [bind py_min_fdiff map].
  set (f := date_diff csv_date).
  set (mn := fold_left fdiff_min (map f ms) (f m0)).
  assert (E : nearest_in_time csv_date (m0 :: ms)
              = filter (fun m => fdiff_ltb mn (Secs DATE_TOLERANCE)
                                 && fdiff_eqb mn (f m)) (m0 :: ms)).
  { unfold nearest_in_time. apply filter_ext_in. intros m Hm.
    symmetry. now apply at_time_minimum_iff. }
  rewrite E.
  change (f m0 :: map f ms) with (map f (m0 :: ms)).
  rewrite select_map.
  destruct (fdiff_ltb mn (Secs DATE_TOLERANCE)).
  - cbn [andb].
    destruct (filter (fun m => fdiff_eqb mn (f m)) (m0 :: ms))
      as [|c [|c' cs]]; reflexivity.
  - cbn [andb].
    assert (N : forall l : list ImageRecord, filter (fun _ => false) l = []).
    { induction l; simpl; auto. }
    now rewrite N.
Qed.

(** [disambiguate_matches] on a tie set, once the declared size reads. *)
Lemma disambiguate_matches_char (row : CsvRow) (matches : list ImageRecord)
  (csv_size : Z) :
  csv_file_size row = Ok csv_size ->
  (2 <= List.length matches)%nat ->
  disambiguate_matches row matches
  = Ok (spec_disambiguate row csv_size matches).
Proof.
  intros Hsize Hlen.
  destruct matches as [|m0 [|m1 ms]]; simpl in Hlen; try lia.
  unfold disambiguate_matches, spec_disambiguate.
  rewrite Hsize. cbn [bind py_min].
  change (map (size_diff_to csv_size) (m0 :: m1 :: ms))
    with (size_diff_to csv_size m0 :: map (size_diff_to csv_size) (m1 :: ms)).
  cbn [py_min bind].
  change (size_diff_to csv_size m0 :: map (size_diff_to csv_size) (m1 :: ms))
    with (map (size_diff_to csv_size) (m0 :: m1 :: ms)).
  rewrite closest_in_size_select.
  rewrite date_stage_char.
  destruct (closest_in_size csv_size (m0 :: m1 :: ms)) as [|c [|c' cs]];
    reflexivity.
Qed.

Lemma select_In {D} (keep : D -> bool) (ms : list ImageRecord)
  (diffs : list D) (m : ImageRecord) :
  In m (select keep ms diffs) -> In m ms.
Proof.
  unfold select. intros H. apply in_map_iff in H.
  destruct H as [[m' d] [E H]]. simpl in E. subst m'.
  apply filter_In in H. destruct H as [H _].
  now apply in_combine_l in H.
Qed.

Lemma date_stage_In (row : CsvRow) (matches : list ImageRecord)
  (m : ImageRecord) :
  date_stage row matches = Ok (Some m) -> In m matches.
Proof.
  unfold date_stage.
  destruct (parse_published row) as [csv_date|e]; cbn [bind]; [|discriminate].
  destruct (py_min_fdiff (map (date_diff csv_date) matches)) as [mn|e];
    cbn [bind]; [|discriminate].
  destruct (fdiff_ltb mn (Secs DATE_TOLERANCE)); [|discriminate].
  destruct (select (fdiff_eqb mn) matches (map (date_diff csv_date) matches))
    as [|c [|c' cs]] eqn:E; try discriminate.
  intros H. injection H as <-.
  apply (select_In (fdiff_eqb mn) matches (map (date_diff csv_date) matches)).
  rewrite E. now left.
Qed.

Lemma disambiguate_matches_In (row : CsvRow) (matches : list ImageRecord)
  (m : ImageRecord) :
  disambiguate_matches row matches = Ok (Some m) -> In m matches.
Proof.
  unfold disambiguate_matches.
  destruct matches as [|m0 [|m1 ms]]; [discriminate| |].
  - intros H. injection H as <-. now left.
  - set (matches := m0 :: m1 :: ms).
    destruct (csv_file_size row) as [csv_size|e]; cbn [bind]; [|discriminate].
    destruct (py_min (map (size_diff_to csv_size) matches)) as [mn|e];
      cbn [bind]; [|discriminate].
    destruct (select (Z.eqb mn) matches (map (size_diff_to csv_size) matches))
      as [|c [|c' cs]] eqn:E.
    + destruct (date_stage row matches) as [[r|]|e] eqn:D; try discriminate.
      intros H. injection H as <-. eapply date_stage_In; eauto.
    + intros H. injection H as <-.
      apply (select_In (Z.eqb mn) matches (map (size_diff_to csv_size) matches)).
      rewrite E. now left.
    + destruct (date_stage row matches) as [[r|]|e] eqn:D; try discriminate.
      intros H. injection H as <-. eapply date_stage_In; eauto.
Qed.

(** The disambiguator raises only where the size column does. *)
Lemma disambiguate_matches_total (row : CsvRow) (matches : list ImageRecord)
  (csv_size : Z) :
  csv_file_size row = Ok csv_size ->
  exists r, disambiguate_matches row matches = Ok r.
Proof.
  intros Hsize.
  destruct matches as [|m0 [|m1 ms]]; [now eexists|now eexists|].
  rewrite (disambiguate_matches_char row _ csv_size Hsize);
    [now eexists|simpl; lia].
Qed.

(** *** The strategy loop *)

Lemma apply_strategies_first (row : CsvRow) (csv_size : Z) (tol : pynum)
  (images : list ImageRecord) (pre : list (ImageRecord -> bool))
  (s : ImageRecord -> bool) (post : list (ImageRecord -> bool)) :
  forallb (matches_nothing images) pre = true ->
  filter s images <> [] ->
  apply_strategies csv_size tol row (pre ++ s :: post) images
  = Some (match filter s images with
          | [m] => Ok (Some m)
          | matches => resolve_tie csv_size tol row matches
          end).
Proof.
  intros Hpre Hs.
  induction pre as [|p pre IH]; simpl in *.
  - destruct (filter s images) as [|m [|m' ms]]; [congruence| |]; reflexivity.
  - apply andb_true_iff in Hpre. destruct Hpre as [Hp Hpre].
    unfold matches_nothing in Hp.
    destruct (filter p images); [|discriminate].
    now apply IH.
Qed.

Lemma apply_strategies_none (row : CsvRow) (csv_size : Z) (tol : pynum)
  (images : list ImageRecord) (strats : list (ImageRecord -> bool)) :
  forallb (matches_nothing images) strats = true ->
  apply_strategies csv_size tol row strats images = None.
Proof.
  induction strats as [|p strats IH]; simpl; [reflexivity|].
  intros H. apply andb_true_iff in H. destruct H as [Hp H].
  unfold matches_nothing in Hp.
  destruct (filter p images); [|discriminate].
  now apply IH.
Qed.

Lemma size_tolerance_unknown (csv_size : Z) (tol : pynum) :
  csv_size <= 0 -> compute_size_tolerance csv_size = Ok tol -> tol = PyInt 0.
Proof.
  intros Hle. unfold compute_size_tolerance.
  destruct (0 <? csv_size) eqn:E; [apply Z.ltb_lt in E; lia|].
  congruence.
Qed.

(** Without a positive declared size the narrowing is skipped; narrowing
    by the tolerance 0 of that case would resolve the same candidate. *)
Lemma resolve_tie_narrowing (row : CsvRow) (csv_size : Z) (tol : pynum)
  (matches : list ImageRecord) :
  csv_file_size row = Ok csv_size ->
  compute_size_tolerance csv_size = Ok tol ->
  (2 <= List.length matches)%nat ->
  resolve_tie csv_size tol row matches
  = match filter (within_tolerance csv_size tol) matches with
    | [m] => Ok (Some m)
    | _ => disambiguate_matches row matches
    end.
Proof.
  intros Hsize Htol Hlen. unfold resolve_tie.
  destruct (0 <? csv_size) eqn:Hpos; [reflexivity|].
  apply Z.ltb_ge in Hpos.
  rewrite (size_tolerance_unknown _ _ Hpos Htol).
  destruct (filter (within_tolerance csv_size (PyInt 0)) matches)
    as [|m [|m' ms]] eqn:E; try reflexivity.
  rewrite (disambiguate_matches_char row matches csv_size Hsize Hlen).
  unfold spec_disambiguate.
  assert (Hm : In m matches /\ within_tolerance csv_size (PyInt 0) m = true).
  { apply filter_singleton_In. exact E. }
  destruct Hm as [Hin Hm0].
  unfold within_tolerance, le_num in Hm0. apply Z.leb_le in Hm0.
  assert (C : closest_in_size csv_size matches
              = filter (within_tolerance csv_size (PyInt 0)) matches).
  { unfold closest_in_size. apply filter_ext_in. intros y Hy.
    unfold within_tolerance, le_num. fold (size_diff_to csv_size y).
    apply eq_true_iff_eq. rewrite forallb_forall, Z.leb_le. split.
    - intros H. specialize (H m Hin). apply Z.leb_le in H.
      unfold size_diff_to in *. lia.
    - intros H x Hx. apply Z.leb_le. unfold size_diff_to in *. lia. }
  now rewrite C, E.
Qed.

Lemma apply_strategies_In (row : CsvRow) (csv_size : Z) (tol : pynum)
  (images : list ImageRecord) (strats : list (ImageRecord -> bool))
  (m : ImageRecord) :
  apply_strategies csv_size tol row strats images = Some (Ok (Some m)) ->
  In m images.
Proof.
  induction strats as [|p strats IH]; simpl; [discriminate|].
  destruct (filter p images) as [|c [|c' cs]] eqn:E; [exact IH| |].
  - intros H. injection H as <-.
    apply (filter_singleton_In p images c E).
  - assert (Sub : forall x, In x (c :: c' :: cs) -> In x images).
    { intros x Hx. rewrite <- E in Hx. now apply filter_In in Hx. }
    intros H. injection H as H. unfold resolve_tie in H.
    destruct (0 <? csv_size).
    + destruct (filter (within_tolerance csv_size tol) (c :: c' :: cs))
        as [|d [|d' ds]] eqn:F.
      * apply Sub. eapply disambiguate_matches_In; eauto.
      * injection H as <-. apply Sub.
        apply (filter_singleton_In _ _ _ F).
      * apply Sub. eapply disambiguate_matches_In; eauto.
    + apply Sub. eapply disambiguate_matches_In; eauto.
Qed.

Lemma apply_strategies_total (row : CsvRow) (csv_size : Z) (tol : pynum)
  (images : list ImageRecord) (strats : list (ImageRecord -> bool))
  (r : result (option ImageRecord)) :
  csv_file_size row = Ok csv_size ->
  apply_strategies csv_size tol row strats images = Some r ->
  exists v, r = Ok v.
Proof.
  intros Hsize.
  induction strats as [|p strats IH]; simpl; [discriminate|].
  destruct (filter p images) as [|c [|c' cs]]; [exact IH| |].
  - intros H. injection H as <-. now eexists.
  - intros H. injection H as <-. unfold resolve_tie.
    destruct (0 <? csv_size).
    + destruct (filter (within_tolerance csv_size tol) (c :: c' :: cs))
        as [|d [|d' ds]];
        solve [now eexists | eapply disambiguate_matches_total; eauto].
    + eapply disambiguate_matches_total; eauto.
Qed.

(** *** The fallback loop *)

Lemma fallback_In (base : pystr) (csv_size : Z) (images : list ImageRecord)
  (m : ImageRecord) :
  fallback base csv_size images = Some m -> In m images.
Proof.
  induction images as [|img rest IH]; simpl; [discriminate|].
  destruct (fallback_by_size csv_size img).
  - intros H. injection H as <-. now left.
  - destruct (fallback_by_words base img).
    + intros H. injection H as <-. now left.
    + intros H. right. now apply IH.
Qed.

Lemma fallback_words_only (base : pystr) (csv_size : Z)
  (images : list ImageRecord) :
  (forall img, In img images -> fallback_by_size csv_size img = false) ->
  fallback base csv_size images = find (fallback_by_words base) images.
Proof.
  induction images as [|img rest IH]; simpl; [reflexivity|].
  intros H. rewrite (H img (or_introl eq_refl)).
  destruct (fallback_by_words base img); [reflexivity|].
  apply IH. intros x Hx. apply H. now right.
Qed.

Lemma matches_nothing_false (images : list ImageRecord)
  (p : ImageRecord -> bool) :
  matches_nothing images p = true ->
  forall img, In img images -> p img = false.
Proof.
  unfold matches_nothing. intros H img Hin.
  destruct (p img) eqn:E; [|reflexivity].
  assert (Hf : In img (filter p images)) by (apply filter_In; auto).
  destruct (filter p images); [destruct Hf|discriminate].
Qed.

(** The size test of the fallback is the predicate of strategy 2, so it
    fails on every candidate once strategy 2 matched none. *)
Lemma fallback_size_dead (row : CsvRow) (csv_size : Z) (tol : pynum)
  (images : list ImageRecord) :
  no_strategy_matches row csv_size tol images = true ->
  forall img, In img images -> fallback_by_size csv_size img = false.
Proof.
  unfold no_strategy_matches, ladder, strategies. cbn [forallb].
  intros H. apply andb_true_iff in H. destruct H as [_ H].
  apply andb_true_iff in H. destruct H as [H2 _].
  exact (matches_nothing_false images _ H2).
Qed.

(** *** [find_best_match] *)

Lemma find_best_match_unfold (row : CsvRow) (images : list ImageRecord)
  (csv_size : Z) (tol : pynum) :
  images <> [] ->
  csv_file_size row = Ok csv_size ->
  compute_size_tolerance csv_size = Ok tol ->
  find_best_match row images
  = match apply_strategies csv_size tol row (ladder row csv_size tol) images with
    | Some r => r
    | None => Ok (fallback (row_base row) csv_size images)
    end.
Proof.
  intros Hne Hsize Htol. unfold find_best_match.
  destruct images as [|i rest]; [congruence|].
  rewrite Hsize. cbn [bind]. rewrite Htol. cbn [bind]. reflexivity.
Qed.

Lemma size_tolerance_total (csv_size : Z) :
  csv_size < float_overflow_bound ->
  exists tol, compute_size_tolerance csv_size = Ok tol.
Proof.
  intros Hb. unfold compute_size_tolerance, int_to_float.
  destruct (0 <? csv_size) eqn:Hpos; [|now eexists].
  apply Z.ltb_lt in Hpos.
  destruct (float_overflow_bound <=? Z.abs csv_size) eqn:E.
  - apply Z.leb_le in E. lia.
  - cbn [bind]. now eexists.
Qed.

Lemma size_field_readable_reads (row : CsvRow) :
  size_field_readable row = true ->
  exists csv_size,
    csv_file_size row = Ok csv_size /\ csv_size < float_overflow_bound.
Proof.
  assert (B : 0 < float_overflow_bound) by reflexivity.
  unfold size_field_readable, csv_file_size.
  destruct (File_Size row) as [| |[|c s]]; try (exists 0; now split).
  destruct (int_of_str (c :: s)) as [z|]; [|discriminate].
  intros H. apply Z.ltb_lt in H. now exists z.
Qed.

Lemma find_best_match_total (row : CsvRow) (images : list ImageRecord) :
  size_field_readable row = true ->
  exists r, find_best_match row images = Ok r.
Proof.
  intros H.
  destruct images as [|i rest]; [now eexists|].
  destruct (size_field_readable_reads row H) as [csv_size [Hsize Hb]].
  destruct (size_tolerance_total csv_size Hb) as [tol Htol].
  rewrite (find_best_match_unfold row (i :: rest) csv_size tol);
    [|discriminate|assumption|assumption].
  destruct (apply_strategies csv_size tol row (ladder row csv_size tol) (i :: rest))
    as [r|] eqn:E; [|now eexists].
  eapply apply_strategies_total; eauto.
Qed.

Lemma find_best_match_In (row : CsvRow) (images : list ImageRecord)
  (m : ImageRecord) :
  find_best_match row images = Ok (Some m) -> In m images.
Proof.
  destruct images as [|i rest]; [discriminate|].
  unfold find_best_match.
  destruct (csv_file_size row) as [csv_size|e]; cbn [bind]; [|discriminate].
  destruct (compute_size_tolerance csv_size) as [tol|e]; cbn [bind];
    [|discriminate].
  match goal with
  | |- match ?a with _ => _ end = _ -> _ => destruct a as [r|] eqn:E
  end.
  - intros ->. eapply apply_strategies_In; eauto.
  - intros H. injection H as H. eapply fallback_In; eauto.
Qed.

Lemma main_never_routes_ambiguous (row : CsvRow) (images : list ImageRecord) :
  routing_is_ambiguous (main_row row images) = false.
Proof.
  unfold main_row.
  destruct (find_best_match row images) as [[r|]|e]; reflexivity.
Qed.

Lemma filter_unique {A} (p : A -> bool) (l1 l2 : list A) (m : A) :
  p m = true ->
  Forall (fun x => p x = false) (l1 ++ l2) ->
  filter p (l1 ++ m :: l2) = [m].
Proof.
  intros Hm H. apply Forall_app in H. destruct H as [H1 H2].
  assert (N : forall l, Forall (fun x => p x = false) l -> filter p l = []).
  { induction l as [|x l IH]; simpl; [reflexivity|].
    intros F. inversion F; subst.
    match goal with E : p x = false |- _ => rewrite E end. now apply IH. }
  rewrite filter_app. simpl. rewrite Hm, (N l1 H1), (N l2 H2). reflexivity.
Qed.

(** *** The claims that hold for every runtime *)

(** C1. The strategies are tried in the order of the list; the first one
    that matches a candidate decides the outcome as the specification
    says: a single match is resolved, several matches are narrowed by the
    relative size tolerance and a single survivor is resolved, and
    otherwise the result is the disambiguator's verdict on the whole tie
    set. The strategies after it do not enter the result. *)
Theorem first_matching_strategy_decides (row : CsvRow)
  (images : list ImageRecord) (csv_size : Z) (tol : pynum)
  (pre : list (ImageRecord -> bool)) (s : ImageRecord -> bool)
  (post : list (ImageRecord -> bool)) :
  csv_file_size row = Ok csv_size ->
  compute_size_tolerance csv_size = Ok tol ->
  ladder row csv_size tol = pre ++ s :: post ->
  forallb (matches_nothing images) pre = true ->
  matches_nothing images s = false ->
  find_best_match row images
  = spec_strategy_outcome row csv_size tol (filter s images).
Proof.
  intros Hsize Htol Hladder Hpre Hs.
  assert (Hne : filter s images <> []).
  { unfold matches_nothing in Hs. destruct (filter s images); [discriminate|].
    discriminate. }
  assert (Himg : images <> []) by (intros ->; now apply Hne).
  rewrite (find_best_match_unfold row images csv_size tol Himg Hsize Htol).
  rewrite Hladder, (apply_strategies_first _ _ _ _ _ _ _ Hpre Hne).
  unfold spec_strategy_outcome.
  destruct (filter s images) as [|m [|m' ms]]; [congruence|reflexivity|].
  apply resolve_tie_narrowing; auto. simpl. lia.
Qed.

(** C4, amended. When no strategy matches a candidate, the fallback
    returns the first candidate within 1024 bytes of a positive declared
    size if there is one, and otherwise the first candidate that shares
    enough words with the row's basename; no candidate passes that size
    test there, because it is the test strategy 2 has applied. *)
Theorem fallback_prefers_size_then_words (row : CsvRow)
  (images : list ImageRecord) (csv_size : Z) (tol : pynum) :
  csv_file_size row = Ok csv_size ->
  compute_size_tolerance csv_size = Ok tol ->
  no_strategy_matches row csv_size tol images = true ->
  find_best_match row images
  = Ok (match find (fallback_by_size csv_size) images with
        | Some m => Some m
        | None => find (fallback_by_words (row_base row)) images
        end)
  /\ find (fallback_by_size csv_size) images = None.
Proof.
  intros Hsize Htol Hnone.
  pose proof (fallback_size_dead row csv_size tol images Hnone) as Hdead.
  assert (Hfind : find (fallback_by_size csv_size) images = None).
  { destruct (find (fallback_by_size csv_size) images) as [m|] eqn:E;
      [|reflexivity].
    apply find_some in E. destruct E as [Hin E].
    rewrite (Hdead m Hin) in E. discriminate. }
  split; [|exact Hfind]. rewrite Hfind.
  destruct images as [|i rest]; [reflexivity|].
  rewrite (find_best_match_unfold row (i :: rest) csv_size tol);
    [|discriminate|assumption|assumption].
  rewrite (apply_strategies_none row csv_size tol (i :: rest) _ Hnone).
  now rewrite (fallback_words_only _ _ _ Hdead).
Qed.

(** C5, amended. When the size column is absent, [None], empty or an
    integer literal that converts to a [float], neither the matcher nor the
    disambiguator raises, whatever the publish date and the candidates'
    modification dates are. *)
Theorem no_fault_when_size_is_readable (row : CsvRow)
  (pool : list ImageRecord) :
  size_field_readable row = true ->
  (exists r, find_best_match row pool = Ok r)
  /\ (exists r, disambiguate_matches row pool = Ok r).
Proof.
  intros H. split.
  - now apply find_best_match_total.
  - destruct (size_field_readable_reads row H) as [csv_size [Hsize _]].
    eapply disambiguate_matches_total; eauto.
Qed.

(** C6, amended. On a tie set of two or more candidates the disambiguator
    resolves the candidate at minimal absolute size difference when it is
    the only one; failing that, it resolves the only candidate of the whole
    tie set, whether at minimal size difference or not, whose time
    difference is minimal and below 300 seconds, an unreadable
    modification date counting as infinitely far; in every other case,
    an unreadable publish date included, it returns [None]. *)
Theorem disambiguate_by_size_then_time (row : CsvRow)
  (matches : list ImageRecord) (csv_size : Z) :
  csv_file_size row = Ok csv_size ->
  (2 <= List.length matches)%nat ->
  disambiguate_matches row matches
  = Ok (spec_disambiguate row csv_size matches).
Proof.
  exact (disambiguate_matches_char row matches csv_size).
Qed.

(** C7. An empty candidate list gives [None] at once; and so does a list
    on which no strategy matches and on which neither test of the
    fallback, size or words, succeeds. *)
Theorem no_match_when_nothing_qualifies (row : CsvRow)
  (images : list ImageRecord) (csv_size : Z) (tol : pynum) :
  images = []
  \/ (csv_file_size row = Ok csv_size
      /\ compute_size_tolerance csv_size = Ok tol
      /\ no_strategy_matches row csv_size tol images = true
      /\ forallb (fun img => negb (fallback_by_size csv_size img)
                             && negb (fallback_by_words (row_base row) img))
           images = true) ->
  find_best_match row images = Ok None.
Proof.
  intros [->|[Hsize [Htol [Hnone Hfb]]]]; [reflexivity|].
  destruct images as [|i rest]; [reflexivity|].
  rewrite (find_best_match_unfold row (i :: rest) csv_size tol);
    [|discriminate|assumption|assumption].
  rewrite (apply_strategies_none row csv_size tol (i :: rest) _ Hnone).
  f_equal. clear Hnone.
  induction (i :: rest) as [|img l IH]; simpl in *; [reflexivity|].
  apply andb_true_iff in Hfb. destruct Hfb as [Himg Hfb].
  apply andb_true_iff in Himg. destruct Himg as [Hs Hw].
  apply negb_true_iff in Hs. apply negb_true_iff in Hw.
  rewrite Hs, Hw. now apply IH.
Qed.

(** C8, amended. Strategy 2 is the second strategy of the list; for a row
    with a positive declared size, a candidate exactly 1024 bytes away
    satisfies it, and a candidate 1025 bytes away never does. *)
Theorem size_boundary_of_strategy_2 (row : CsvRow) (csv_size : Z)
  (tol : pynum) (img : ImageRecord) :
  nth_error (ladder row csv_size tol) 1 = Some (strategy_2 csv_size)
  /\ (0 < csv_size -> size_diff_to csv_size img = 1024 ->
      strategy_2 csv_size img = true)
  /\ (size_diff_to csv_size img = 1025 -> strategy_2 csv_size img = false).
Proof.
  unfold strategy_2, size_diff_to. repeat split.
  - intros Hpos E. rewrite E. apply Z.ltb_lt in Hpos. now rewrite Hpos.
  - intros E. rewrite E. apply andb_false_r.
Qed.

(** C9. A record returned by the matcher is one of the candidates it was
    given, and a record returned by the disambiguator is one of the tie
    set it was given. *)
Theorem resolved_record_in_pool (row : CsvRow) (pool : list ImageRecord)
  (r : ImageRecord) :
  find_best_match row pool = Ok (Some r)
  \/ disambiguate_matches row pool = Ok (Some r) ->
  In r pool.
Proof.
  intros [H|H].
  - eapply find_best_match_In; eauto.
  - eapply disambiguate_matches_In; eauto.
Qed.

(** C10. For a row whose declared size reads as zero, the size
    differences of a tie set are the candidates' own sizes, and the
    candidate strictly smaller than all the others is resolved. *)
Theorem zero_declared_size_resolves_smallest (row : CsvRow)
  (l1 : list ImageRecord) (m : ImageRecord) (l2 : list ImageRecord) :
  csv_file_size row = Ok 0 ->
  (1 <= List.length (l1 ++ l2))%nat ->
  Forall (fun x => 0 <= size x) (l1 ++ m :: l2) ->
  Forall (fun x => size m < size x) (l1 ++ l2) ->
  map (size_diff_to 0) (l1 ++ m :: l2) = map size (l1 ++ m :: l2)
  /\ disambiguate_matches row (l1 ++ m :: l2) = Ok (Some m).
Proof.
  intros Hsize Hlen Hnn Hlt.
  assert (Hd : forall x, In x (l1 ++ m :: l2) -> size_diff_to 0 x = size x).
  { intros x Hx. rewrite Forall_forall in Hnn. specialize (Hnn x Hx).
    unfold size_diff_to. lia. }
  split; [now apply map_ext_in|].
  rewrite (disambiguate_matches_char row _ 0 Hsize)
    by (rewrite length_app in *; simpl; lia).
  unfold spec_disambiguate, closest_in_size.
  assert (Hm : In m (l1 ++ m :: l2)) by (apply in_or_app; right; now left).
  assert (Hsub : forall x, In x (l1 ++ l2) -> In x (l1 ++ m :: l2)).
  { intros x Hx. apply in_app_or in Hx. apply in_or_app.
    destruct Hx; [now left|right; now right]. }
  rewrite filter_unique; [reflexivity| |].
  - apply forallb_forall. intros x Hx. apply Z.leb_le.
    rewrite (Hd m Hm), (Hd x Hx).
    apply in_app_or in Hx. rewrite Forall_forall in Hlt.
    destruct Hx as [Hx|[<-|Hx]]; [|lia|].
    + specialize (Hlt x (in_or_app _ _ _ (or_introl Hx))). lia.
    + specialize (Hlt x (in_or_app _ _ _ (or_intror Hx))). lia.
  - rewrite Forall_forall in *. intros x Hx.
    apply not_true_is_false. intros F.
    rewrite forallb_forall in F. specialize (F m Hm). apply Z.leb_le in F.
    rewrite (Hd m Hm), (Hd x (Hsub x Hx)) in F.
    specialize (Hlt x Hx). lia.
Qed.

End Properties.

(** *** Scenarios and instances on the Latin-1 runtime *)

(** C2. The code returns [None] both for a row whose candidates cannot
    be told apart and for a row that matches no candidate, and [main]
    counts both as "no match": its test for ['ambiguous'] never succeeds,
    for these rows and for any other. *)
Theorem ambiguous_is_reported_as_no_match :
  disambiguate_matches row_x1 [a1_100; b1_100] = Ok None
  /\ find_best_match row_x1 [a1_100; b1_100] = Ok None
  /\ find_best_match row_x1 [unrelated] = Ok None
  /\ main_row row_x1 [a1_100; b1_100] = Ok CountNoMatch
  /\ main_row row_x1 [unrelated] = Ok CountNoMatch
  /\ (forall (rt : PyRuntime) row images,
        routing_is_ambiguous (@main_row rt row images) = false).
Proof.
  repeat split; try (vm_compute; reflexivity).
  intros rt row images. apply main_never_routes_ambiguous.
Qed.

(** C3, the scenario as stated: the digits of the row's name are "42",
    those of the candidate's name are "042"; the two strings differ, no
    strategy matches and the row is not resolved. *)
Lemma scenario_B_is_not_resolved :
  get_numbers (Filename row_JHR_42) = u "42"
  /\ get_numbers (filename jobb_042) = u "042"
  /\ no_strategy_matches row_JHR_42 0 (PyInt 0) [jobb_042; jobb_043] = true
  /\ find_best_match row_JHR_42 [jobb_042; jobb_043] = Ok None.
Proof.
  repeat split; vm_compute; reflexivity.
Qed.

(** C3, amended. For the row "JHR-042.jpg", whose digits are the
    candidate's digits character for character, the first five strategies
    match nothing, the JHR strategy matches the 042 candidate alone, and
    the matcher resolves it. *)
Theorem scenario_B_with_equal_digit_strings :
  get_numbers (Filename row_JHR_042) = get_numbers (filename jobb_042)
  /\ forallb (matches_nothing [jobb_042; jobb_043])
       (firstn 5 (ladder row_JHR_042 0 (PyInt 0))) = true
  /\ nth_error (ladder row_JHR_042 0 (PyInt 0)) 5
     = Some (strategy_6 (u "JHR-042.jpg") (u "042"))
  /\ filter (strategy_6 (u "JHR-042.jpg") (u "042")) [jobb_042; jobb_043]
     = [jobb_042]
  /\ find_best_match row_JHR_042 [jobb_042; jobb_043] = Ok (Some jobb_042).
Proof.
  repeat split; vm_compute; reflexivity.
Qed.

(** C4, the claim as stated: the row declares the size 0, the first
    candidate is within 1024 bytes of it and no strategy matches; the
    fallback passes over that candidate and returns the later one, by
    words. *)
Lemma fallback_ignores_size_without_positive_declared_size :
  csv_file_size (row_words (Str (u "0"))) = Ok 0
  /\ no_strategy_matches (row_words (Str (u "0"))) 0 (PyInt 0)
       [small_zzz; holiday_album] = true
  /\ Z.abs (size small_zzz - 0) <= 1024
  /\ find_best_match (row_words (Str (u "0"))) [small_zzz; holiday_album]
     = Ok (Some holiday_album)
  /\ holiday_album <> small_zzz.
Proof.
  repeat split; try (vm_compute; reflexivity); try discriminate.
Qed.

(** The fallback loop by itself tests each candidate for size, then for
    words, before it moves to the next one; inside [find_best_match] a
    candidate that close in size is taken by strategy 2 before. *)
Example fallback_loop_is_one_pass :
  fallback (row_base (row_words (Str (u "5000000")))) 5000000
    [holiday_album; off_by_100] = Some holiday_album
  /\ find_best_match (row_words (Str (u "5000000")))
       [holiday_album; off_by_100] = Ok (Some off_by_100).
Proof.
  split; vm_compute; reflexivity.
Qed.

Lemma fallback_prefers_size_then_words_witness :
  csv_file_size (row_words (Str (u "5000000"))) = Ok 5000000
  /\ compute_size_tolerance 5000000 = Ok (PyInt 102400)
  /\ no_strategy_matches (row_words (Str (u "5000000"))) 5000000
       (PyInt 102400) [small_zzz; holiday_album] = true
  /\ find_best_match (row_words (Str (u "5000000")))
       [small_zzz; holiday_album]
     = Ok (match find (fallback_by_size 5000000) [small_zzz; holiday_album] with
           | Some m => Some m
           | None => find (fallback_by_words
                             (row_base (row_words (Str (u "5000000")))))
                       [small_zzz; holiday_album]
           end).
Proof.
  split; [vm_compute; reflexivity|].
  split; [vm_compute; reflexivity|].
  split; [vm_compute; reflexivity|].
  refine (proj1 (fallback_prefers_size_then_words
                   (row_words (Str (u "5000000")))
                   [small_zzz; holiday_album] 5000000 (PyInt 102400) _ _ _));
    vm_compute; reflexivity.
Defined.

(** C5, the claim as stated: a size column that is not an integer
    literal makes both functions raise [ValueError]. *)
Lemma malformed_size_raises :
  find_best_match row_bad_size [a1_100] = Raise ValueError
  /\ disambiguate_matches row_bad_size [a1_100; b1_100] = Raise ValueError.
Proof.
  split; vm_compute; reflexivity.
Qed.

(** An integer literal too large for a [float] raises in the tolerance
    computation. *)
Example huge_size_raises :
  find_best_match row_huge_size [a1_100] = Raise OverflowError.
Proof.
  vm_compute; reflexivity.
Qed.

Lemma no_fault_when_size_is_readable_witness :
  size_field_readable row_sentinels = true
  /\ (exists r, find_best_match row_sentinels [a1_100; b1_100] = Ok r)
  /\ (exists r, disambiguate_matches row_sentinels [a1_100; b1_100] = Ok r).
Proof.
  split; [reflexivity|].
  apply (no_fault_when_size_is_readable row_sentinels [a1_100; b1_100]).
  reflexivity.
Defined.

(** C6, the claim as stated: two candidates share the minimal size
    difference and carry no date; the third is farther in size, so it is
    not among the candidates kept by the size step, and it is the one
    resolved, by its date. *)
Lemma time_step_resolves_a_candidate_not_closest_in_size :
  closest_in_size 1000 [near_a; near_b; far_c] = [near_a; near_b]
  /\ ~ In far_c (closest_in_size 1000 [near_a; near_b; far_c])
  /\ disambiguate_matches row_dated [near_a; near_b; far_c] = Ok (Some far_c).
Proof.
  split; [vm_compute; reflexivity|]. split; [|vm_compute; reflexivity].
  change (closest_in_size 1000 [near_a; near_b; far_c])
    with [near_a; near_b].
  intros [H|[H|[]]]; discriminate.
Qed.

Lemma disambiguate_by_size_then_time_witness :
  csv_file_size row_dated = Ok 1000
  /\ disambiguate_matches row_dated [near_a; near_b; far_c]
     = Ok (spec_disambiguate row_dated 1000 [near_a; near_b; far_c]).
Proof.
  split; [vm_compute; reflexivity|].
  apply (disambiguate_by_size_then_time row_dated [near_a; near_b; far_c] 1000).
  - vm_compute; reflexivity.
  - simpl. lia.
Defined.

Lemma first_matching_strategy_decides_witness :
  find_best_match row_x1 [a1_100; b1_200]
  = spec_strategy_outcome row_x1 0 (PyInt 0)
      (filter (strategy_8 (u "1")) [a1_100; b1_200])
  /\ find_best_match row_x1 [a1_100; b1_200] = Ok (Some a1_100).
Proof.
  split; [|vm_compute; reflexivity].
  apply (first_matching_strategy_decides row_x1 [a1_100; b1_200] 0 (PyInt 0)
           (firstn 7 (ladder row_x1 0 (PyInt 0)))
           (strategy_8 (u "1"))
           [strategy_9 (u "x1")]);
    vm_compute; reflexivity.
Defined.

Lemma no_match_when_nothing_qualifies_witness :
  find_best_match (row_words (Str (u "5000000"))) [small_zzz; unrelated]
  = Ok None.
Proof.
  apply (no_match_when_nothing_qualifies (row_words (Str (u "5000000")))
           [small_zzz; unrelated] 5000000 (PyInt 102400)).
  right. repeat split; vm_compute; reflexivity.
Defined.

(** C8, the claim as stated: the row declares the size 0 and the
    candidate has 1024 bytes, exactly 1024 away; strategy 2 rejects it. *)
Lemma strategy_2_needs_a_positive_declared_size :
  csv_file_size row_zero_size = Ok 0
  /\ size_diff_to 0 exactly_1024 = 1024
  /\ strategy_2 0 exactly_1024 = false
  /\ no_strategy_matches row_zero_size 0 (PyInt 0) [exactly_1024] = true.
Proof.
  repeat split; vm_compute; reflexivity.
Qed.

Lemma size_boundary_of_strategy_2_witness :
  strategy_2 5000000 off_by_1024 = true
  /\ strategy_2 5000000 off_by_1025 = false.
Proof.
  split.
  - apply (size_boundary_of_strategy_2 (row_words (Str (u "5000000")))
             5000000 (PyInt 102400) off_by_1024); reflexivity.
  - apply (size_boundary_of_strategy_2 (row_words (Str (u "5000000")))
             5000000 (PyInt 102400) off_by_1025); reflexivity.
Defined.

(** The candidate 1025 bytes away is within the relative tolerance of
    that row and is caught by strategy 3. *)
Example strategy_3_catches_1025 :
  strategy_3 5000000 (PyInt 102400) off_by_1025 = true
  /\ find_best_match (row_words (Str (u "5000000"))) [off_by_1025]
     = Ok (Some off_by_1025).
Proof.
  split; vm_compute; reflexivity.
Qed.

Lemma resolved_record_in_pool_witness :
  find_best_match row_x1 [a1_100; b1_200] = Ok (Some a1_100)
  /\ In a1_100 [a1_100; b1_200].
Proof.
  split; [vm_compute; reflexivity|].
  apply (resolved_record_in_pool row_x1 [a1_100; b1_200] a1_100).
  left. vm_compute; reflexivity.
Defined.

Lemma zero_declared_size_resolves_smallest_witness :
  map (size_diff_to 0) [c1_300; a1_100; b1_200] = [300; 100; 200]
  /\ disambiguate_matches row_x1 [c1_300; a1_100; b1_200] = Ok (Some a1_100).
Proof.
  apply (zero_declared_size_resolves_smallest row_x1 [c1_300] a1_100 [b1_200]).
  - reflexivity.
  - simpl. lia.
  - repeat constructor; discriminate.
  - repeat constructor.
Defined.

(** ** Further properties of the matcher *)

Section MatcherProperties.

Context {rt : PyRuntime}.

Lemma apply_strategies_none_inv (row : CsvRow) (csv_size : Z) (tol : pynum)
  (images : list ImageRecord) (strats : list (ImageRecord -> bool)) :
  apply_strategies csv_size tol row strats images = None ->
  forallb (matches_nothing images) strats = true.
Proof.
  induction strats as [|p strats IH]; simpl; [reflexivity|].
  unfold matches_nothing at 1.
  destruct (filter p images) as [|c [|c' cs]]; try discriminate.
  exact IH.
Qed.

(** With a single candidate every filter is empty or that candidate. *)
Lemma apply_strategies_single (row : CsvRow) (csv_size : Z) (tol : pynum)
  (img : ImageRecord) (strats : list (ImageRecord -> bool)) :
  apply_strategies csv_size tol row strats [img]
  = if existsb (fun p => p img) strats then Some (Ok (Some img)) else None.
Proof.
  induction strats as [|p strats IH]; simpl; [reflexivity|].
  destruct (p img); simpl; [reflexivity|exact IH].
Qed.

Lemma contains_empty (s : pystr) : contains s [] = true.
Proof. destruct s; reflexivity. Qed.

Lemma filter_const_on {A} (p : A -> bool) (l : list A) (b : bool) :
  (forall x, In x l -> p x = b) ->
  filter p l = if b then l else [].
Proof.
  induction l as [|x l IH]; simpl; intros H; [now destruct b|].
  rewrite (H x (or_introl eq_refl)), IH by (intros y Hy; apply H; now right).
  now destruct b.
Qed.

Lemma filter_Permutation {A} (p : A -> bool) (l l' : list A) :
  Permutation l l' -> Permutation (filter p l) (filter p l').
Proof.
  induction 1; simpl.
  - constructor.
  - destruct (p x); [now constructor|assumption].
  - destruct (p x), (p y); try apply Permutation_refl; apply perm_swap.
  - eapply Permutation_trans; eauto.
Qed.

Lemma forallb_Permutation {A} (p : A -> bool) (l l' : list A) :
  Permutation l l' -> forallb p l = forallb p l'.
Proof.
  induction 1; simpl.
  - reflexivity.
  - now rewrite IHPermutation.
  - destruct (p x), (p y); reflexivity.
  - congruence.
Qed.

(** Reading a list as "exactly one element" does not depend on its
    order. *)
Lemma single_Permutation {A B} (f : A -> B) (d : B) (l l' : list A) :
  Permutation l l' ->
  match l with [m] => f m | _ => d end
  = match l' with [m] => f m | _ => d end.
Proof.
  intros H. pose proof (Permutation_length H) as L.
  destruct l as [|a [|a' l0]].
  - destruct l'; [reflexivity|discriminate].
  - apply Permutation_length_1_inv in H. now subst.
  - destruct l' as [|b [|b' l1]]; try discriminate. reflexivity.
Qed.

Lemma closest_in_size_Permutation (csv_size : Z)
  (ms ms' : list ImageRecord) :
  Permutation ms ms' ->
  Permutation (closest_in_size csv_size ms) (closest_in_size csv_size ms').
Proof.
  intros H. unfold closest_in_size.
  rewrite (filter_ext _
             (fun m => forallb (fun x => size_diff_to csv_size m
                                         <=? size_diff_to csv_size x) ms')).
  - now apply filter_Permutation.
  - intros m. now apply forallb_Permutation.
Qed.

Lemma nearest_in_time_Permutation (csv_date : Z)
  (ms ms' : list ImageRecord) :
  Permutation ms ms' ->
  Permutation (nearest_in_time csv_date ms) (nearest_in_time csv_date ms').
Proof.
  intros H. unfold nearest_in_time.
  rewrite (filter_ext _
             (fun m => fdiff_ltb (date_diff csv_date m) (Secs DATE_TOLERANCE)
                       && forallb (fun x => negb (fdiff_ltb (date_diff csv_date x)
                                                    (date_diff csv_date m))) ms')).
  - now apply filter_Permutation.
  - intros m. f_equal. now apply forallb_Permutation.
Qed.

Lemma spec_disambiguate_Permutation (row : CsvRow) (csv_size : Z)
  (ms ms' : list ImageRecord) :
  Permutation ms ms' ->
  spec_disambiguate row csv_size ms = spec_disambiguate row csv_size ms'.
Proof.
  intros H. unfold spec_disambiguate.
  assert (T : match parse_published row with
              | Ok csv_date =>
                  match nearest_in_time csv_date ms with
                  | [m] => Some m
                  | _ => None
                  end
              | Raise _ => None
              end
              = match parse_published row with
                | Ok csv_date =>
                    match nearest_in_time csv_date ms' with
                    | [m] => Some m
                    | _ => None
                    end
                | Raise _ => None
                end).
  { destruct (parse_published row) as [d|e]; [|reflexivity].
    apply (single_Permutation (fun m => Some m) None).
    now apply nearest_in_time_Permutation. }
  pose proof (closest_in_size_Permutation csv_size ms ms' H) as C.
  pose proof (Permutation_length C) as L.
  destruct (closest_in_size csv_size ms) as [|a [|a' l0]].
  - destruct (closest_in_size csv_size ms'); [exact T|discriminate].
  - apply Permutation_length_1_inv in C. now rewrite C.
  - destruct (closest_in_size csv_size ms') as [|b [|b' l1]];
      try discriminate. exact T.
Qed.

Lemma spec_strategy_outcome_Permutation (row : CsvRow) (csv_size : Z)
  (tol : pynum) (ms ms' : list ImageRecord) :
  csv_file_size row = Ok csv_size ->
  Permutation ms ms' ->
  spec_strategy_outcome row csv_size tol ms
  = spec_strategy_outcome row csv_size tol ms'.
Proof.
  intros Hsize H. unfold spec_strategy_outcome.
  pose proof (Permutation_length H) as L.
  assert (D : (2 <= List.length ms)%nat ->
              disambiguate_matches row ms = disambiguate_matches row ms').
  { intros L2.
    rewrite (disambiguate_matches_char row ms csv_size Hsize L2).
    rewrite (disambiguate_matches_char row ms' csv_size Hsize)
      by (rewrite <- L; exact L2).
    f_equal. now apply spec_disambiguate_Permutation. }
  assert (F : Permutation (filter (within_tolerance csv_size tol) ms)
                (filter (within_tolerance csv_size tol) ms'))
    by now apply filter_Permutation.
  destruct ms as [|a [|a' l0]].
  - destruct ms'; [reflexivity|discriminate].
  - apply Permutation_length_1_inv in H. now subst.
  - destruct ms' as [|b [|b' l1]]; try discriminate.
    specialize (D ltac:(simpl; lia)).
    pose proof (Permutation_length F) as LF.
    destruct (filter (within_tolerance csv_size tol) (a :: a' :: l0))
      as [|x [|x' xs]].
    + destruct (filter (within_tolerance csv_size tol) (b :: b' :: l1));
        [exact D|discriminate].
    + apply Permutation_length_1_inv in F. now rewrite F.
    + destruct (filter (within_tolerance csv_size tol) (b :: b' :: l1))
        as [|y [|y' ys]]; try discriminate. exact D.
Qed.

Lemma strategy_step (row : CsvRow) (csv_size : Z) (tol : pynum)
  (images : list ImageRecord) (p : ImageRecord -> bool)
  (strats : list (ImageRecord -> bool)) :
  csv_file_size row = Ok csv_size ->
  compute_size_tolerance csv_size = Ok tol ->
  apply_strategies csv_size tol row (p :: strats) images
  = match filter p images with
    | [] => apply_strategies csv_size tol row strats images
    | ms => Some (spec_strategy_outcome row csv_size tol ms)
    end.
Proof.
  intros Hsize Htol. cbn [apply_strategies]. unfold spec_strategy_outcome.
  destruct (filter p images) as [|a [|a' l0]]; try reflexivity.
  f_equal. apply resolve_tie_narrowing; auto. simpl. lia.
Qed.

Lemma apply_strategies_Permutation (row : CsvRow) (csv_size : Z)
  (tol : pynum) (images images' : list ImageRecord)
  (strats : list (ImageRecord -> bool)) :
  csv_file_size row = Ok csv_size ->
  compute_size_tolerance csv_size = Ok tol ->
  Permutation images images' ->
  apply_strategies csv_size tol row strats images
  = apply_strategies csv_size tol row strats images'.
Proof.
  intros Hsize Htol H.
  induction strats as [|p strats IH]; [reflexivity|].
  rewrite !(strategy_step row csv_size tol _ p strats Hsize Htol).
  pose proof (filter_Permutation p images images' H) as F.
  pose proof (Permutation_length F) as L.
  destruct (filter p images) as [|a l0] eqn:E.
  - destruct (filter p images'); [exact IH|discriminate].
  - destruct (filter p images') as [|b l1] eqn:E'; [discriminate|].
    f_equal. now apply spec_strategy_outcome_Permutation.
Qed.

(** X1. When the embedded original name of exactly one candidate matches
    the row, that candidate is the result, whatever the sizes, dates and
    names of the candidates are; when it matches several, the result is
    one of them or [None]. *)
Theorem embedded_name_match_dominates (row : CsvRow)
  (images : list ImageRecord) (csv_size : Z) (tol : pynum) :
  csv_file_size row = Ok csv_size ->
  compute_size_tolerance csv_size = Ok tol ->
  matches_nothing images (strategy_1 (row_base row)) = false ->
  exists r,
    find_best_match row images = Ok r
    /\ (forall m, filter (strategy_1 (row_base row)) images = [m] ->
                  r = Some m)
    /\ (forall m, r = Some m ->
                  In m images /\ strategy_1 (row_base row) m = true).
Proof.
  intros Hsize Htol Hs.
  set (s1 := strategy_1 (row_base row)) in *.
  assert (Himg : images <> []).
  { intros ->. discriminate. }
  rewrite (find_best_match_unfold row images csv_size tol Himg Hsize Htol).
  unfold ladder, strategies. fold s1.
  rewrite (strategy_step row csv_size tol images s1 _ Hsize Htol).
  unfold matches_nothing in Hs.
  destruct (filter s1 images) as [|a l0] eqn:E; [discriminate|].
  assert (Sub : forall x, In x (a :: l0) -> In x images /\ s1 x = true).
  { intros x Hx. rewrite <- E in Hx. now apply filter_In in Hx. }
  unfold spec_strategy_outcome.
  destruct l0 as [|a' l0].
  - exists (Some a). split; [reflexivity|]. split.
    + intros m H. now injection H as <-.
    + intros m H. injection H as <-. apply Sub. now left.
  - destruct (filter (within_tolerance csv_size tol) (a :: a' :: l0))
      as [|x [|x' xs]] eqn:F.
    + destruct (disambiguate_matches_total row (a :: a' :: l0) csv_size Hsize)
        as [r Hr].
      exists r. split; [exact Hr|]. split; [discriminate|].
      intros m ->. apply Sub. eapply disambiguate_matches_In; eauto.
    + exists (Some x). split; [reflexivity|]. split; [discriminate|].
      intros m H. injection H as <-. apply Sub.
      apply (filter_singleton_In _ _ _ F).
    + destruct (disambiguate_matches_total row (a :: a' :: l0) csv_size Hsize)
        as [r Hr].
      exists r. split; [exact Hr|]. split; [discriminate|].
      intros m ->. apply Sub. eapply disambiguate_matches_In; eauto.
Qed.

(** X2. When at least one strategy matches a candidate, the result does
    not depend on the order of the index. *)
Theorem strategy_result_ignores_index_order (row : CsvRow)
  (images images' : list ImageRecord) (csv_size : Z) (tol : pynum) :
  csv_file_size row = Ok csv_size ->
  compute_size_tolerance csv_size = Ok tol ->
  Permutation images images' ->
  no_strategy_matches row csv_size tol images = false ->
  find_best_match row images = find_best_match row images'.
Proof.
  intros Hsize Htol H Hsome.
  assert (Himg : images <> []).
  { intros ->. discriminate. }
  assert (Himg' : images' <> []).
  { intros ->. apply Permutation_sym, Permutation_nil in H. contradiction. }
  rewrite (find_best_match_unfold row images csv_size tol Himg Hsize Htol).
  rewrite (find_best_match_unfold row images' csv_size tol Himg' Hsize Htol).
  rewrite <- (apply_strategies_Permutation row csv_size tol images images'
                _ Hsize Htol H).
  destruct (apply_strategies csv_size tol row (ladder row csv_size tol) images)
    as [r|] eqn:E; [reflexivity|].
  apply apply_strategies_none_inv in E.
  unfold no_strategy_matches in Hsome. congruence.
Qed.

(** X3. A tie set of candidates that all have the same size and the same
    modification date is never resolved. *)
Theorem indistinguishable_tie_is_not_resolved (row : CsvRow)
  (a b : ImageRecord) (rest : list ImageRecord) (csv_size : Z) :
  csv_file_size row = Ok csv_size ->
  Forall (fun x => size x = size a /\ modify_date x = modify_date a)
    (b :: rest) ->
  disambiguate_matches row (a :: b :: rest) = Ok None.
Proof.
  intros Hsize Hall.
  assert (Hall' : forall x, In x (a :: b :: rest) ->
                            size x = size a /\ modify_date x = modify_date a).
  { intros x [<-|Hx]; [now split|].
    rewrite Forall_forall in Hall. now apply Hall. }
  rewrite (disambiguate_matches_char row _ csv_size Hsize) by (simpl; lia).
  f_equal. unfold spec_disambiguate, closest_in_size.
  rewrite (filter_const_on _ (a :: b :: rest) true).
  - destruct (parse_published row) as [d|e]; [|reflexivity].
    unfold nearest_in_time.
    rewrite (filter_const_on _ (a :: b :: rest)
               (fdiff_ltb (date_diff d a) (Secs DATE_TOLERANCE))).
    + now destruct (fdiff_ltb (date_diff d a) (Secs DATE_TOLERANCE)).
    + intros x Hx. destruct (Hall' x Hx) as [_ Hd].
      assert (E : date_diff d x = date_diff d a).
      { unfold date_diff. now rewrite Hd. }
      rewrite E.
      rewrite (proj2 (forallb_forall _ _)); [apply andb_true_r|].
      intros y Hy. destruct (Hall' y Hy) as [_ Hd'].
      assert (E' : date_diff d y = date_diff d a).
      { unfold date_diff. now rewrite Hd'. }
      rewrite E'. pose proof (fdiff_leb_refl (date_diff d a)) as R.
      exact R.
  - intros x Hx. apply forallb_forall. intros y Hy.
    destruct (Hall' x Hx) as [Sx _]. destruct (Hall' y Hy) as [Sy _].
    unfold size_diff_to. rewrite Sx, Sy. apply Z.leb_refl.
Qed.

(** X4. A candidate resolved by the disambiguator out of a tie set is
    nowhere farther in size than another candidate, or the publish date was
    readable and the candidate is less than 300 seconds from it and nowhere
    farther in time than another candidate. *)
Theorem disambiguated_candidate_is_nearest (row : CsvRow)
  (matches : list ImageRecord) (csv_size : Z) (m : ImageRecord) :
  csv_file_size row = Ok csv_size ->
  (2 <= List.length matches)%nat ->
  disambiguate_matches row matches = Ok (Some m) ->
  (forall x, In x matches ->
             size_diff_to csv_size m <= size_diff_to csv_size x)
  \/ (exists csv_date t,
        parse_published row = Ok csv_date
        /\ date_diff csv_date m = Secs t /\ t < DATE_TOLERANCE
        /\ forall x, In x matches ->
                     fdiff_leb (date_diff csv_date m) (date_diff csv_date x)
                     = true).
Proof.
  intros Hsize Hlen.
  rewrite (disambiguate_matches_char row matches csv_size Hsize Hlen).
  unfold spec_disambiguate. intros H. injection H as H.
  destruct (closest_in_size csv_size matches) as [|c [|c' cs]] eqn:C.
  - right. destruct (parse_published row) as [d|e]; [|discriminate].
    destruct (nearest_in_time d matches) as [|n [|n' ns]] eqn:T;
      try discriminate.
    injection H as <-. apply filter_singleton_In in T.
    destruct T as [_ T]. apply andb_true_iff in T. destruct T as [T1 T2].
    destruct (date_diff d n) as [t|] eqn:Dn; [|discriminate].
    exists d, t. repeat split; auto.
    + simpl in T1. now apply Z.ltb_lt in T1.
    + intros x Hx. rewrite forallb_forall in T2.
      unfold fdiff_leb. rewrite Dn. exact (T2 x Hx).
  - left. injection H as <-. apply filter_singleton_In in C.
    destruct C as [_ C]. rewrite forallb_forall in C.
    intros x Hx. apply Z.leb_le. now apply C.
  - right. destruct (parse_published row) as [d|e]; [|discriminate].
    destruct (nearest_in_time d matches) as [|n [|n' ns]] eqn:T;
      try discriminate.
    injection H as <-. apply filter_singleton_In in T.
    destruct T as [_ T]. apply andb_true_iff in T. destruct T as [T1 T2].
    destruct (date_diff d n) as [t|] eqn:Dn; [|discriminate].
    exists d, t. repeat split; auto.
    + simpl in T1. now apply Z.ltb_lt in T1.
    + intros x Hx. rewrite forallb_forall in T2.
      unfold fdiff_leb. rewrite Dn. exact (T2 x Hx).
Qed.

(** X5. With a single candidate in the index the result is that
    candidate when a strategy or the word test of the fallback accepts
    it, and [None] otherwise. *)
Theorem single_candidate_result (row : CsvRow) (img : ImageRecord)
  (csv_size : Z) (tol : pynum) :
  csv_file_size row = Ok csv_size ->
  compute_size_tolerance csv_size = Ok tol ->
  find_best_match row [img]
  = Ok (if existsb (fun p => p img) (ladder row csv_size tol)
           || fallback_by_words (row_base row) img
        then Some img else None).
Proof.
  intros Hsize Htol.
  rewrite (find_best_match_unfold row [img] csv_size tol);
    [|discriminate|assumption|assumption].
  rewrite apply_strategies_single.
  destruct (existsb (fun p => p img) (ladder row csv_size tol)) eqn:E;
    [reflexivity|].
  simpl. f_equal.
  assert (S2 : fallback_by_size csv_size img = false).
  { unfold ladder, strategies in E. simpl in E.
    apply orb_false_iff in E. destruct E as [_ E].
    apply orb_false_iff in E. destruct E as [E _]. exact E. }
  rewrite S2. now destruct (fallback_by_words (row_base row) img).
Qed.

(** X6. A row whose filename is blank matches every candidate by
    containment: with a single candidate in the index it is resolved to that
    candidate, whatever the candidate is. *)
Theorem blank_filename_matches_any_candidate (row : CsvRow)
  (img : ImageRecord) (csv_size : Z) (tol : pynum) :
  str_lower [] = [] ->
  strip (Filename row) = [] ->
  csv_file_size row = Ok csv_size ->
  compute_size_tolerance csv_size = Ok tol ->
  strategy_9 (row_base row) img = true
  /\ find_best_match row [img] = Ok (Some img).
Proof.
  intros Hlow Hblank Hsize Htol.
  assert (B : row_base row = []).
  { unfold row_base. rewrite Hblank. exact Hlow. }
  assert (S9 : strategy_9 (row_base row) img = true).
  { unfold strategy_9. rewrite B, contains_empty. reflexivity. }
  split; [exact S9|].
  rewrite (find_best_match_unfold row [img] csv_size tol);
    [|discriminate|assumption|assumption].
  rewrite apply_strategies_single.
  assert (E : existsb (fun p => p img) (ladder row csv_size tol) = true).
  { apply existsb_exists. exists (strategy_9 (row_base row)). split; [|exact S9].
    unfold ladder, strategies. simpl. tauto. }
  now rewrite E.
Qed.

End MatcherProperties.

(** ** Properties of the index, the writer and the loop of [main] *)

Section SystemProperties.

Context {rt : PyRuntime}.

(** *** The index *)

Lemma startswith_app (a b : pystr) : startswith (a ++ b) a = true.
Proof.
  induction a as [|c a IH]; simpl; [now destruct b|].
  now rewrite N.eqb_refl, IH.
Qed.

Lemma contains_app (a b : pystr) : contains (a ++ b) a = true.
Proof.
  assert (U : forall s sub, startswith s sub = true -> contains s sub = true).
  { intros s sub H. destruct s; cbn [contains]; now rewrite H. }
  apply U, startswith_app.
Qed.

Lemma path_join_app (a : pystr) (c : N) (b r : pystr) :
  N.eqb chr_slash c = false ->
  path_join a ((c :: b) ++ r) = path_join a (c :: b) ++ r.
Proof.
  intros H. unfold path_join.
  change ((c :: b) ++ r) with (c :: (b ++ r)).
  cbn [startswith]. rewrite H. cbn [andb].
  destruct (is_empty a || ends_with_slash a).
  - change (c :: b ++ r) with ((c :: b) ++ r). now rewrite app_assoc.
  - change (chr_slash :: c :: b ++ r) with ((chr_slash :: c :: b) ++ r).
    now rewrite app_assoc.
Qed.

(** X7. A path of the working directory whose file name begins with the
    name of a status folder (Done, Failed, NoMatch, Ambiguous) contains
    that folder's path as a substring and is left out of the index, whether
    or not it is a file of such a folder. *)
Theorem status_prefixed_names_are_not_indexed (WORKDIR : pystr)
  (isfile : pystr -> bool) (d rest : pystr) :
  In d [u "Done"; u "Failed"; u "NoMatch"; u "Ambiguous"] ->
  in_status_dir WORKDIR (path_join WORKDIR (d ++ rest)) = true
  /\ indexable WORKDIR isfile (path_join WORKDIR (d ++ rest)) = false.
Proof.
  intros Hd.
  assert (S : in_status_dir WORKDIR (path_join WORKDIR (d ++ rest)) = true).
  { unfold in_status_dir, DIR_DONE, DIR_FAILED, DIR_NOMATCH, DIR_AMBIG.
    cbn [existsb].
    destruct Hd as [<-|[<-|[<-|[<-|[]]]]].
    - let x := eval vm_compute in (u "Done") in change (u "Done") with x.
      rewrite path_join_app by reflexivity. now rewrite contains_app.
    - let x := eval vm_compute in (u "Failed") in change (u "Failed") with x.
      rewrite path_join_app by reflexivity.
      rewrite contains_app. now rewrite !orb_true_r.
    - let x := eval vm_compute in (u "NoMatch") in change (u "NoMatch") with x.
      rewrite path_join_app by reflexivity.
      rewrite contains_app. now rewrite !orb_true_r.
    - let x := eval vm_compute in (u "Ambiguous") in
        change (u "Ambiguous") with x.
      rewrite path_join_app by reflexivity.
      rewrite contains_app. now rewrite !orb_true_r. }
  split; [exact S|]. unfold indexable. rewrite S. apply andb_false_r.
Qed.


(** *** The writer *)

Lemma build_metadata_none (img_path : pystr) (t : CsvText) :
  build_metadata img_path t = None <-> text_has_none t = true.
Proof.
  unfold build_metadata, text_has_none, text_of.
  destruct (pystr_eqb _ _);
    destruct (Title t), (Description t), (Tags t), (Kreditering t),
      (Personer_i_bildet t); simpl; split; intros H;
      try reflexivity; try discriminate.
Qed.

(** X9. A row with a [None] text cell is never written: the writer
    returns [False] without running exiftool, in a dry run or not; in the
    loop of [main] the row counts as failed and, outside a dry run, the
    matched image is moved to the Failed folder. *)
Theorem short_row_fails_without_writing {World} (sys : System World)
  (w : World) (WORKDIR : pystr) (dry_run : bool)
  (images : list ImageRecord) (c : Counters) (row : MetadataRow)
  (mt : ImageRecord) :
  text_has_none (text row) = true ->
  find_best_match (matching row) images = Ok (Some mt) ->
  os_path_exists sys w (path_join (DIR_DONE WORKDIR) (filename mt)) = false ->
  apply_iptc_metadata sys w (path mt) (text row) dry_run = (w, false)
  /\ process_row sys WORKDIR dry_run images (w, c) row
     = Ok (if dry_run then w
           else fst (shutil_move sys w (path mt)
                       (path_join (DIR_FAILED WORKDIR) (filename mt))),
           count_failed (count_processed c)).
Proof.
  intros Hnone Hm Hdest.
  assert (A : apply_iptc_metadata sys w (path mt) (text row) dry_run
              = (w, false)).
  { unfold apply_iptc_metadata.
    destruct (os_path_exists sys w (path mt)); [|reflexivity]. simpl.
    now rewrite (proj2 (build_metadata_none (path mt) (text row)) Hnone). }
  split; [exact A|].
  unfold process_row. rewrite Hm. cbn [bind as_object route truthy negb].
  cbn [obj_eq_str fst snd bind]. rewrite Hdest, A.
  now destruct dry_run.
Qed.

Lemma tag_args_In (metadata : list (pystr * pystr)) (arg : pystr) :
  In arg (tag_args metadata) <->
  exists tag value,
    In (tag, value) metadata /\ value <> [] /\ arg = tag_arg tag value.
Proof.
  induction metadata as [|[tag value] rest IH]; simpl.
  - split; [intros []|intros [? [? [[] _]]]].
  - destruct value as [|v value]; simpl.
    + rewrite IH. split.
      * intros [t [x [Hin H]]]. exists t, x. split; [now right|exact H].
      * intros [t [x [[E|Hin] [Hne H]]]].
        -- injection E as <- <-. congruence.
        -- exists t, x. auto.
    + split.
      * intros [<-|H].
        -- exists tag, (v :: value). repeat split; [now left|discriminate].
        -- apply IH in H. destruct H as [t [x [Hin H]]].
           exists t, x. split; [now right|exact H].
      * intros [t [x [[E|Hin] [Hne H]]]].
        -- injection E as <- <-. now left.
        -- right. apply IH. exists t, x. auto.
Qed.

Lemma strip_nonspace_free (s : pystr) :
  Forall (fun c => chr_isspace c = true) s -> strip s = [].
Proof.
  intros H. unfold strip, strip_by.
  assert (L : forall l, Forall (fun c => chr_isspace c = true) l ->
                        lstrip_by chr_isspace l = []).
  { induction l as [|c l IH]; simpl; [reflexivity|].
    intros F. inversion F; subst.
    match goal with E : chr_isspace c = true |- _ => rewrite E end.
    now apply IH. }
  rewrite (L s H). reflexivity.
Qed.


Lemma metadata_keys (img_path : pystr) (t : CsvText)
  (metadata : list (pystr * pystr)) :
  build_metadata img_path t = Some metadata ->
  map fst metadata
  = if pystr_eqb (str_lower (snd (splitext img_path))) (u ".png")
    then [u "XMP:Title"; u "XMP:Description"; u "XMP:Subject";
          u "XMP:Rights"; u "XMP:PersonInImage"]
    else [u "IPTC:Headline"; u "IPTC:Caption-Abstract";
          u "IPTC:CopyrightNotice"; u "IPTC:Keywords";
          u "XMP:PersonInImage"].
Proof.
  unfold build_metadata.
  destruct (pystr_eqb _ _);
    destruct (text_of (Title t)), (text_of (Description t)),
      (text_of (Tags t)), (text_of (Kreditering t)),
      (text_of (Personer_i_bildet t)); try discriminate;
      intros H; injection H as <-; reflexivity.
Qed.

Lemma xmp_option (name value : pystr) :
  startswith (tag_arg (u "XMP:" ++ name) value) (u "-XMP:") = true.
Proof.
  unfold tag_arg.
  replace (u "-" ++ (u "XMP:" ++ name) ++ u "=" ++ value)
    with (u "-XMP:" ++ name ++ u "=" ++ value) by reflexivity.
  apply startswith_app.
Qed.

(** X11. For an image whose extension is ".png" in any letter case every
    tag option of the command is an XMP tag, so that no IPTC tag is
    written to it; for any other image the title, description, credit and
    keywords are IPTC tags, in that order, and only the persons are an XMP
    tag. *)
Theorem png_gets_xmp_tags_only (img_path : pystr) (t : CsvText)
  (metadata : list (pystr * pystr)) :
  build_metadata img_path t = Some metadata ->
  if pystr_eqb (str_lower (snd (splitext img_path))) (u ".png")
  then Forall (fun arg => startswith arg (u "-XMP:") = true)
         (tag_args metadata)
  else map fst metadata
       = [u "IPTC:Headline"; u "IPTC:Caption-Abstract";
          u "IPTC:CopyrightNotice"; u "IPTC:Keywords";
          u "XMP:PersonInImage"].
Proof.
  intros H. pose proof (metadata_keys img_path t metadata H) as K.
  destruct (pystr_eqb _ _); [|exact K].
  apply Forall_forall. intros arg Harg.
  apply tag_args_In in Harg. destruct Harg as [tag [value [Hin [_ ->]]]].
  assert (Ht : In tag (map fst metadata)).
  { apply in_map_iff. now exists (tag, value). }
  rewrite K in Ht.
  destruct Ht as [<-|[<-|[<-|[<-|[<-|[]]]]]].
  - exact (xmp_option (u "Title") value).
  - exact (xmp_option (u "Description") value).
  - exact (xmp_option (u "Subject") value).
  - exact (xmp_option (u "Rights") value).
  - exact (xmp_option (u "PersonInImage") value).
Qed.

(** *** The loop of [main] *)

Lemma apply_dry_run_world {World} (sys : System World) (w : World)
  (img_path : pystr) (t : CsvText) :
  fst (apply_iptc_metadata sys w img_path t true) = w.
Proof.
  unfold apply_iptc_metadata.
  destruct (os_path_exists sys w img_path); simpl; [|reflexivity].
  destruct (build_metadata img_path t); reflexivity.
Qed.

Lemma process_row_counts {World} (sys : System World) (WORKDIR : pystr)
  (dry_run : bool) (images : list ImageRecord) (w w' : World)
  (c c' : Counters) (row : MetadataRow) :
  process_row sys WORKDIR dry_run images (w, c) row = Ok (w', c') ->
  processed c' = processed c + 1
  /\ ambiguous c' = ambiguous c
  /\ success c <= success c' /\ failed c <= failed c'
  /\ no_match c <= no_match c'
  /\ (success c' - success c) + (no_match c' - no_match c) <= 1
  /\ failed c' - failed c <= 1
  /\ 1 <= (success c' - success c) + (failed c' - failed c)
          + (no_match c' - no_match c)
  /\ (dry_run = true ->
      (success c' - success c) + (failed c' - failed c)
      + (no_match c' - no_match c) = 1
      /\ w' = w).
Proof.
  unfold process_row. cbn [fst snd].
  destruct (find_best_match (matching row) images) as [[mt|]|e];
    cbn [bind as_object route truthy negb obj_eq_str]; cbn [bind];
    try discriminate.
  - destruct (os_path_exists sys w _).
    + intros H. injection H as <- <-. simpl. repeat split; try lia.
    + pose proof (apply_dry_run_world sys w (path mt) (text row)) as D.
      destruct (apply_iptc_metadata sys w (path mt) (text row) dry_run)
        as [w1 [|]] eqn:A; destruct dry_run.
      * rewrite A in D. simpl in D. subst w1.
        intros H. injection H as <- <-. simpl. repeat split; try lia.
      * destruct (shutil_move sys w1 (path mt) _) as [w2 [| |]];
          intros H; injection H as <- <-; simpl;
          repeat split; try lia; try discriminate.
      * rewrite A in D. simpl in D. subst w1.
        intros H. injection H as <- <-. simpl. repeat split; try lia.
      * intros H. injection H as <- <-. simpl.
        repeat split; try lia; try discriminate.
  - intros H. injection H as <- <-. simpl. repeat split; try lia.
Qed.

Lemma process_rows_counts {World} (sys : System World) (WORKDIR : pystr)
  (dry_run : bool) (images : list ImageRecord) (rows : list MetadataRow) :
  forall (w w' : World) (c c' : Counters),
  process_rows sys WORKDIR dry_run images (w, c) rows = Ok (w', c') ->
  processed c' = processed c + Z.of_nat (List.length rows)
  /\ ambiguous c' = ambiguous c
  /\ success c <= success c' /\ failed c <= failed c'
  /\ no_match c <= no_match c'
  /\ (success c' - success c) + (no_match c' - no_match c)
     <= Z.of_nat (List.length rows)
  /\ failed c' - failed c <= Z.of_nat (List.length rows)
  /\ Z.of_nat (List.length rows)
     <= (success c' - success c) + (failed c' - failed c)
        + (no_match c' - no_match c)
  /\ (dry_run = true ->
      (success c' - success c) + (failed c' - failed c)
      + (no_match c' - no_match c) = Z.of_nat (List.length rows)
      /\ w' = w).
Proof.
  induction rows as [|row rows IH]; intros w w' c c'.
  - simpl. intros H. injection H as <- <-. repeat split; try lia.
  - cbn [process_rows].
    destruct (process_row sys WORKDIR dry_run images (w, c) row)
      as [[w1 c1]|e] eqn:R; cbn [bind]; [|discriminate].
    intros H. apply IH in H. apply process_row_counts in R.
    rewrite length_cons, Nat2Z.inj_succ.
    destruct R as (R1 & R2 & R3 & R4 & R5 & R6 & R7 & R8 & R9).
    destruct H as (H1 & H2 & H3 & H4 & H5 & H6 & H7 & H8 & H9).
    do 8 (split; [lia|]).
    intros D. destruct (R9 D) as [E Ew]. destruct (H9 D) as [E' Ew'].
    split; [lia|congruence].
Qed.

(** X12. When the loop runs to its end, it has counted every row once as
    processed; the ambiguous counter is still zero; a row is counted at
    most once as matched or unmatched and at least once in all, so that
    the matched, unmatched and failed counts add up to the number of rows
    or more (a row whose file was written but could not be moved counts
    both as a success and as a failure), and to exactly that number in a
    dry run. *)
Theorem loop_counters {World} (sys : System World) (WORKDIR : pystr)
  (dry_run : bool) (images : list ImageRecord) (rows : list MetadataRow)
  (w w' : World) (c : Counters) :
  process_rows sys WORKDIR dry_run images (w, no_counts) rows = Ok (w', c) ->
  processed c = Z.of_nat (List.length rows)
  /\ ambiguous c = 0
  /\ 0 <= success c /\ 0 <= no_match c
  /\ 0 <= failed c <= processed c
  /\ success c + no_match c <= processed c
  /\ processed c <= success c + failed c + no_match c
  /\ (dry_run = true -> success c + failed c + no_match c = processed c).
Proof.
  intros H. apply process_rows_counts in H. simpl in H.
  destruct H as (H1 & H2 & H3 & H4 & H5 & H6 & H7 & H8 & H9).
  do 7 (split; [lia|]).
  intros D. destruct (H9 D) as [E _]. lia.
Qed.

(** X13. A dry run changes nothing: whatever the rows, the index and the
    system are, the state of the system after the loop is the one before
    it. *)
Theorem dry_run_changes_nothing {World} (sys : System World)
  (WORKDIR : pystr) (images : list ImageRecord) (rows : list MetadataRow)
  (w w' : World) (c c' : Counters) :
  process_rows sys WORKDIR true images (w, c) rows = Ok (w', c') ->
  w' = w.
Proof.
  intros H. apply process_rows_counts in H.
  destruct H as (_ & _ & _ & _ & _ & _ & _ & _ & H9).
  now destruct (H9 eq_refl).
Qed.

Lemma find_best_match_raises (row : CsvRow) (images : list ImageRecord)
  (e : exn) :
  images <> [] ->
  csv_file_size row = Raise e ->
  find_best_match row images = Raise e.
Proof.
  intros Hne H. unfold find_best_match.
  destruct images; [congruence|]. now rewrite H.
Qed.

(** X14. One row whose size column does not read ends the whole run with
    its exception, wherever it stands among the rows and whatever the
    other rows are, as soon as the index is not empty: no counters are
    reported. *)
Theorem unreadable_size_aborts_the_run {World} (sys : System World)
  (WORKDIR : pystr) (dry_run : bool) (images : list ImageRecord)
  (rows : list MetadataRow) (bad : MetadataRow) (e : exn)
  (st : World * Counters) :
  images <> [] ->
  In bad rows ->
  csv_file_size (matching bad) = Raise e ->
  exists e', process_rows sys WORKDIR dry_run images st rows = Raise e'.
Proof.
  intros Hne Hin Hbad. revert st.
  induction rows as [|row rows IH]; intros st; [destruct Hin|].
  cbn [process_rows].
  destruct Hin as [->|Hin].
  - exists e. unfold process_row.
    now rewrite (find_best_match_raises _ _ e Hne Hbad).
  - destruct (process_row sys WORKDIR dry_run images st row) as [st'|e'];
      cbn [bind]; [now apply IH|now exists e'].
Qed.

End SystemProperties.

(** *** Instances on the Latin-1 runtime *)

Lemma embedded_name_match_dominates_witness :
  exists r,
    find_best_match row_dsc [same_size_decoy; raw_named] = Ok r
    /\ (forall m, filter (strategy_1 (row_base row_dsc))
                    [same_size_decoy; raw_named] = [m] -> r = Some m)
    /\ (forall m, r = Some m ->
                  In m [same_size_decoy; raw_named]
                  /\ strategy_1 (row_base row_dsc) m = true).
Proof.
  apply (embedded_name_match_dominates row_dsc [same_size_decoy; raw_named]
           5000000 (PyInt 102400));
    vm_compute; reflexivity.
Defined.

Lemma strategy_result_ignores_index_order_witness :
  find_best_match row_x1 [a1_100; b1_200]
  = find_best_match row_x1 [b1_200; a1_100].
Proof.
  apply (strategy_result_ignores_index_order row_x1 [a1_100; b1_200]
           [b1_200; a1_100] 0 (PyInt 0)).
  - vm_compute; reflexivity.
  - vm_compute; reflexivity.
  - apply perm_swap.
  - vm_compute; reflexivity.
Defined.

Lemma indistinguishable_tie_is_not_resolved_witness :
  disambiguate_matches row_x1 [a1_100; b1_100] = Ok None.
Proof.
  apply (indistinguishable_tie_is_not_resolved row_x1 a1_100 b1_100 [] 0).
  - vm_compute; reflexivity.
  - repeat constructor.
Defined.

Lemma disambiguated_candidate_is_nearest_witness :
  (forall x, In x [near_a; near_b; far_c] ->
             size_diff_to 1000 far_c <= size_diff_to 1000 x)
  \/ (exists csv_date t,
        parse_published row_dated = Ok csv_date
        /\ date_diff csv_date far_c = Secs t /\ t < DATE_TOLERANCE
        /\ forall x, In x [near_a; near_b; far_c] ->
                     fdiff_leb (date_diff csv_date far_c)
                       (date_diff csv_date x) = true).
Proof.
  apply (disambiguated_candidate_is_nearest row_dated
           [near_a; near_b; far_c] 1000 far_c).
  - vm_compute; reflexivity.
  - simpl. lia.
  - vm_compute; reflexivity.
Defined.

Lemma single_candidate_result_witness :
  find_best_match row_x1 [a1_100] = Ok (Some a1_100)
  /\ find_best_match row_x1 [unrelated] = Ok None.
Proof.
  split.
  - rewrite (single_candidate_result row_x1 a1_100 0 (PyInt 0));
      vm_compute; reflexivity.
  - rewrite (single_candidate_result row_x1 unrelated 0 (PyInt 0));
      vm_compute; reflexivity.
Defined.

Lemma blank_filename_matches_any_candidate_witness :
  strategy_9 (row_base blank_row) unrelated = true
  /\ find_best_match blank_row [unrelated] = Ok (Some unrelated).
Proof.
  apply (blank_filename_matches_any_candidate blank_row unrelated 0 (PyInt 0));
    vm_compute; reflexivity.
Defined.

Lemma status_prefixed_names_are_not_indexed_witness :
  path_join work (u "Donegal coast.jpg") = u "/work/Donegal coast.jpg"
  /\ in_status_dir work (u "/work/Donegal coast.jpg") = true
  /\ indexable work (fun _ => true) (u "/work/Donegal coast.jpg") = false.
Proof.
  split; [vm_compute; reflexivity|].
  change (u "/work/Donegal coast.jpg")
    with (path_join work (u "Done" ++ u "gal coast.jpg")).
  apply (status_prefixed_names_are_not_indexed work (fun _ => true)
           (u "Done") (u "gal coast.jpg")).
  now left.
Defined.

Lemma short_row_fails_without_writing_witness :
  apply_iptc_metadata (directory 0) two_files (path a1_100) short_text false
  = (two_files, false)
  /\ process_row (directory 0) work false [a1_100; b1_200]
       (two_files, no_counts) {| matching := row_x1; text := short_text |}
     = Ok (fst (shutil_move (directory 0) two_files (path a1_100)
                  (path_join (DIR_FAILED work) (filename a1_100))),
           count_failed (count_processed no_counts)).
Proof.
  apply (short_row_fails_without_writing (directory 0) two_files work false
           [a1_100; b1_200] no_counts
           {| matching := row_x1; text := short_text |} a1_100);
    vm_compute; reflexivity.
Defined.


Lemma png_gets_xmp_tags_only_witness :
  match build_metadata (u "/work/zzz.PNG") no_text with
  | Some metadata =>
      Forall (fun arg => startswith arg (u "-XMP:") = true)
        (tag_args metadata)
  | None => False
  end.
Proof.
  destruct (build_metadata (u "/work/zzz.PNG") no_text) as [metadata|] eqn:H.
  - exact (png_gets_xmp_tags_only (u "/work/zzz.PNG") no_text metadata H).
  - vm_compute in H. discriminate.
Defined.

Lemma loop_counters_witness :
  match process_rows (directory 0) work false [a1_100; b1_200]
          (two_files, no_counts) reader_rows with
  | Ok (_, c) =>
      processed c = 3 /\ ambiguous c = 0
      /\ 0 <= success c /\ 0 <= no_match c
      /\ 0 <= failed c <= processed c
      /\ success c + no_match c <= processed c
      /\ processed c <= success c + failed c + no_match c
      /\ (false = true -> success c + failed c + no_match c = processed c)
  | Raise _ => False
  end.
Proof.
  destruct (process_rows (directory 0) work false [a1_100; b1_200]
              (two_files, no_counts) reader_rows) as [[w' c]|e] eqn:H.
  - exact (loop_counters (directory 0) work false [a1_100; b1_200]
             reader_rows two_files w' c H).
  - vm_compute in H. discriminate.
Defined.

(** The run of that witness: the first row is written and its file
    moved to Done; the third row resolves to the same file, still in the
    index, finds it in Done and is counted a success although its text has
    [None] cells. *)
Example loop_run :
  process_rows (directory 0) work false [a1_100; b1_200]
    (two_files, no_counts) reader_rows
  = Ok ([u "/work/Done/a1.jpg"; u "/work/b1.jpg"],
        {| processed := 3; success := 2; failed := 0; no_match := 1;
           ambiguous := 0 |}).
Proof.
  vm_compute; reflexivity.
Qed.

Lemma dry_run_changes_nothing_witness :
  match process_rows (directory 0) work true [a1_100; b1_200]
          (two_files, no_counts) reader_rows with
  | Ok (w', _) => w' = two_files
  | Raise _ => False
  end.
Proof.
  destruct (process_rows (directory 0) work true [a1_100; b1_200]
              (two_files, no_counts) reader_rows) as [[w' c]|e] eqn:H.
  - exact (dry_run_changes_nothing (directory 0) work [a1_100; b1_200]
             reader_rows two_files w' no_counts c H).
  - vm_compute in H. discriminate.
Defined.

Lemma unreadable_size_aborts_the_run_witness :
  exists e',
    process_rows (directory 0) work false [a1_100] (two_files, no_counts)
      (rev bad_then_good) = Raise e'.
Proof.
  apply (unreadable_size_aborts_the_run (directory 0) work false [a1_100]
           (rev bad_then_good)
           {| matching := row_bad_size; text := no_text |} ValueError).
  - discriminate.
  - right. now left.
  - vm_compute; reflexivity.
Defined.
